(** * GUVI Link Hub: the client UI controller of [static/script.js]

    The controller is a set of event handlers closed over a few variables
    ([isSearchMode], [searchTimeout]) and over the page's DOM.  It is embedded
    here as programs of a state-and-exception monad over a record [Page] that
    holds exactly the parts of the DOM and of the closure the handlers read or
    write, together with a trace of the effects that leave the page
    (requests, console output, [window.open], [location.reload]).

    An [async] function is split where it awaits the network: its synchronous
    prefix returns the continuation that runs once the response is known, so
    other handlers may run in between.

    The server ([app.py]) is not part of the sources; its link store is
    modelled from the specification in [Module Server]. *)

From Stdlib Require Import List ZArith NArith Bool Ascii String Lia.
Import ListNotations.

Open Scope Z_scope.
Open Scope list_scope.

(** ** JavaScript strings

    A JavaScript string is a sequence of UTF-16 code units. *)

Definition jsstring := list N.

(** ASCII literals of the source, as code units. *)
Definition lit (s : string) : jsstring :=
  map N_of_ascii (list_ascii_of_string s).

Fixpoint jsstring_eqb (a b : jsstring) : bool :=
  match a, b with
  | [], [] => true
  | x :: a', y :: b' => N.eqb x y && jsstring_eqb a' b'
  | _, _ => false
  end.

(** [WhiteSpace] and [LineTerminator] of ECMAScript: what
    [String.prototype.trim] strips. *)
Definition isWhiteSpace (c : N) : bool :=
  (N.eqb c 0x09 || N.eqb c 0x0A || N.eqb c 0x0B || N.eqb c 0x0C || N.eqb c 0x0D
   || N.eqb c 0x20 || N.eqb c 0xA0 || N.eqb c 0x1680
   || (N.leb 0x2000 c && N.leb c 0x200A)
   || N.eqb c 0x2028 || N.eqb c 0x2029 || N.eqb c 0x202F || N.eqb c 0x205F
   || N.eqb c 0x3000 || N.eqb c 0xFEFF)%bool.

Fixpoint trimStart (s : jsstring) : jsstring :=
  match s with
  | [] => []
  | c :: s' => if isWhiteSpace c then trimStart s' else s
  end.

Definition trimEnd (s : jsstring) : jsstring := rev (trimStart (rev s)).

(** [s.trim()] *)
Definition trim (s : jsstring) : jsstring := trimEnd (trimStart s).

(** A string of whitespace only (the empty string included). *)
Definition blank (s : jsstring) : bool := forallb isWhiteSpace s.

Definition isHighSurrogate (c : N) : bool := (N.leb 0xD800 c && N.leb c 0xDBFF)%bool.
Definition isLowSurrogate (c : N) : bool := (N.leb 0xDC00 c && N.leb c 0xDFFF)%bool.

(** [encodeURIComponent] throws a [URIError] on a string with a lone
    surrogate; on every other string it is an injective encoding, and a
    request is recorded below with the string it encodes. *)
Fixpoint isWellFormed (s : jsstring) : bool :=
  match s with
  | [] => true
  | c :: s' =>
      if isHighSurrogate c then
        match s' with
        | d :: s'' => isLowSurrogate d && isWellFormed s''
        | [] => false
        end
      else if isLowSurrogate c then false
      else isWellFormed s'
  end.

(** ** JavaScript values

    The values the handlers receive: what [JSON.parse] yields, and
    [undefined].  A number is an integer here (ids, counters); an object is
    the list of its own properties, each key once. *)

#[warnings="-register-all"]
Inductive JsVal : Type :=
| JUndefined
| JNull
| JBool (b : bool)
| JNum (z : Z)
| JStr (s : jsstring)
| JArr (elems : list JsVal)
| JObj (props : list (jsstring * JsVal)).

(** [ToBoolean]: what [if (v)], [!v] and [v || w] test. *)
Definition truthy (v : JsVal) : bool :=
  match v with
  | JUndefined | JNull => false
  | JBool b => b
  | JNum z => negb (Z.eqb z 0)
  | JStr s => match s with [] => false | _ => true end
  | JArr _ | JObj _ => true
  end.

(** [a || b] *)
Definition js_or (a b : JsVal) : JsVal := if truthy a then a else b.

Fixpoint lookup (k : jsstring) (props : list (jsstring * JsVal)) : JsVal :=
  match props with
  | [] => JUndefined
  | (k', v) :: rest => if jsstring_eqb k k' then v else lookup k rest
  end.

(** [v.name] for a property [name] that no prototype defines ([success],
    [error], [url], ...): a [TypeError] ([None]) on [null] and [undefined],
    [undefined] on the other primitives and on arrays. *)
Definition getProp (v : JsVal) (name : string) : option JsVal :=
  match v with
  | JUndefined | JNull => None
  | JObj props => Some (lookup (lit name) props)
  | _ => Some JUndefined
  end.

(** [v.length] *)
Definition getLength (v : JsVal) : option JsVal :=
  match v with
  | JUndefined | JNull => None
  | JStr s => Some (JNum (Z.of_nat (List.length s)))
  | JArr l => Some (JNum (Z.of_nat (List.length l)))
  | JObj props => Some (lookup (lit "length") props)
  | _ => Some JUndefined
  end.

(** [v === 0] *)
Definition strictEqualsZero (v : JsVal) : bool :=
  match v with
  | JNum z => Z.eqb z 0
  | _ => false
  end.

(** Whether the conversion of [v] to a string returns.  It does for every
    primitive.  An object parsed from JSON holds no function, so an own
    [toString] property hides the inherited method and the conversion ends
    in a [TypeError]; without one it gives [[object Object]].  An array
    joins the conversions of its elements. *)
Fixpoint stringifies (v : JsVal) : bool :=
  match v with
  | JArr elems => forallb stringifies elems
  | JObj props => negb (existsb (fun kv => jsstring_eqb (lit "toString") (fst kv)) props)
  | _ => true
  end.

(** ** The page *)

(** A piece of text interpolated into markup: a literal of the source or a
    value converted to a string. *)
Inductive Piece : Type :=
| Lit (s : string)
| Val (v : JsVal).

Definition Text := list Piece.

(** One rendered entry of the search results or of the command palette, by
    the values interpolated into its template. *)
Record Item : Type := mkItem {
  item_url : JsVal;          (* first argument of the onclick's openLink *)
  item_id : JsVal;           (* second argument of the onclick's openLink *)
  item_title : JsVal;
  item_description : JsVal;  (* link.description || '' *)
  item_category : JsVal;
  item_clicks : JsVal        (* link.clicks || 0 *)
}.

(** One rendered entry of the links block of the chat. *)
Record ChatLink : Type := mkChatLink {
  cl_url : JsVal;
  cl_id : JsVal;
  cl_title : JsVal;
  cl_description : JsVal;
  cl_category : JsVal
}.

(** The [innerHTML] of a results container. *)
Inductive Markup : Type :=
| Static (html : string)        (* markup of the template, or the palette's hint *)
| NoLinksFound                  (* <div ...>No links found</div> *)
| SearchItems (items : list Item)
| QuickItems (items : list Item).

Inductive Sender : Type := User | AI.

(** A child of [#chatMessages]. *)
Inductive ChatNode : Type :=
| Message (id : Z) (sender : Sender) (text : Text)   (* id="msg-<id>" *)
| Links (links : list ChatLink).

Inductive NotificationType : Type := Success | Error | Info.

Record Notification : Type := mkNotification {
  n_message : Text;
  n_type : NotificationType;
  n_duration : Z
}.

(** A [.category-filter] button. *)
Record FilterButton : Type := mkFilterButton {
  fb_category : option jsstring;   (* dataset.category *)
  fb_classes : list string         (* classList *)
}.

(** A [.link-card]. *)
Record LinkCard : Type := mkLinkCard {
  lc_category : option jsstring;   (* dataset.category *)
  lc_display : string              (* style.display *)
}.

Inductive Request : Type :=
| SearchRequest (q : jsstring)                 (* GET /search?q=<q, encoded> *)
| ChatRequest (message : jsstring)             (* POST /ai_chat {message} *)
| AddLinkRequest (form : list (jsstring * jsstring))   (* POST /add_link, FormData *)
| ImportRequest (content category added_by : jsstring) (* POST /import_from_text *)
| ClickRequest (id : JsVal)                    (* GET /click_link/<id> *)
| DeleteRequest (id : JsVal).                  (* GET /delete_link/<id> *)

Inductive Effect : Type :=
| Fetch (r : Request)
| ConsoleError (label : string)
| WindowOpen (url : JsVal) (target : string)
| LocationReload
| PreventDefault.

Record Page : Type := mkPage {
  (* closure variables *)
  isSearchMode : bool;
  searchTimeout : option jsstring;   (* the pending debounce timer, with the query it captured *)
  (* #searchResults *)
  searchResults_hidden : bool;
  searchResults_html : Markup;
  (* chat *)
  chatInput_value : jsstring;
  chatMessages : list ChatNode;
  (* #addLinkModal and its form *)
  addLinkModal_hidden : bool;
  addLinkForm : list (jsstring * jsstring);
  addLinkForm_initial : list (jsstring * jsstring);
  (* #importModal and its fields *)
  importModal_hidden : bool;
  importText_value : jsstring;
  importCategory_value : jsstring;
  importAddedBy_value : jsstring;
  (* command palette *)
  commandResults_html : Markup;
  (* category filter *)
  categoryFilters : list FilterButton;
  linkCards : list LinkCard;
  (* #notifications *)
  notifications : list Notification;
  (* readings of Date.now(): the clock and the number of readings taken *)
  clock : nat -> Z;
  ticks : nat;
  (* what left the page, oldest first *)
  trace : list Effect
}.

(** Field updates. *)

Definition set_searchTimeout (v : option jsstring) (p : Page) : Page :=
  mkPage (isSearchMode p) v (searchResults_hidden p) (searchResults_html p)
    (chatInput_value p) (chatMessages p) (addLinkModal_hidden p) (addLinkForm p)
    (addLinkForm_initial p) (importModal_hidden p) (importText_value p)
    (importCategory_value p) (importAddedBy_value p) (commandResults_html p)
    (categoryFilters p) (linkCards p) (notifications p) (clock p) (ticks p) (trace p).

Definition set_searchResults_hidden (v : bool) (p : Page) : Page :=
  mkPage (isSearchMode p) (searchTimeout p) v (searchResults_html p)
    (chatInput_value p) (chatMessages p) (addLinkModal_hidden p) (addLinkForm p)
    (addLinkForm_initial p) (importModal_hidden p) (importText_value p)
    (importCategory_value p) (importAddedBy_value p) (commandResults_html p)
    (categoryFilters p) (linkCards p) (notifications p) (clock p) (ticks p) (trace p).

Definition set_searchResults_html (v : Markup) (p : Page) : Page :=
  mkPage (isSearchMode p) (searchTimeout p) (searchResults_hidden p) v
    (chatInput_value p) (chatMessages p) (addLinkModal_hidden p) (addLinkForm p)
    (addLinkForm_initial p) (importModal_hidden p) (importText_value p)
    (importCategory_value p) (importAddedBy_value p) (commandResults_html p)
    (categoryFilters p) (linkCards p) (notifications p) (clock p) (ticks p) (trace p).

Definition set_chatInput_value (v : jsstring) (p : Page) : Page :=
  mkPage (isSearchMode p) (searchTimeout p) (searchResults_hidden p) (searchResults_html p)
    v (chatMessages p) (addLinkModal_hidden p) (addLinkForm p)
    (addLinkForm_initial p) (importModal_hidden p) (importText_value p)
    (importCategory_value p) (importAddedBy_value p) (commandResults_html p)
    (categoryFilters p) (linkCards p) (notifications p) (clock p) (ticks p) (trace p).

Definition set_chatMessages (v : list ChatNode) (p : Page) : Page :=
  mkPage (isSearchMode p) (searchTimeout p) (searchResults_hidden p) (searchResults_html p)
    (chatInput_value p) v (addLinkModal_hidden p) (addLinkForm p)
    (addLinkForm_initial p) (importModal_hidden p) (importText_value p)
    (importCategory_value p) (importAddedBy_value p) (commandResults_html p)
    (categoryFilters p) (linkCards p) (notifications p) (clock p) (ticks p) (trace p).

Definition set_addLinkModal_hidden (v : bool) (p : Page) : Page :=
  mkPage (isSearchMode p) (searchTimeout p) (searchResults_hidden p) (searchResults_html p)
    (chatInput_value p) (chatMessages p) v (addLinkForm p)
    (addLinkForm_initial p) (importModal_hidden p) (importText_value p)
    (importCategory_value p) (importAddedBy_value p) (commandResults_html p)
    (categoryFilters p) (linkCards p) (notifications p) (clock p) (ticks p) (trace p).

Definition set_addLinkForm (v : list (jsstring * jsstring)) (p : Page) : Page :=
  mkPage (isSearchMode p) (searchTimeout p) (searchResults_hidden p) (searchResults_html p)
    (chatInput_value p) (chatMessages p) (addLinkModal_hidden p) v
    (addLinkForm_initial p) (importModal_hidden p) (importText_value p)
    (importCategory_value p) (importAddedBy_value p) (commandResults_html p)
    (categoryFilters p) (linkCards p) (notifications p) (clock p) (ticks p) (trace p).

Definition set_importModal_hidden (v : bool) (p : Page) : Page :=
  mkPage (isSearchMode p) (searchTimeout p) (searchResults_hidden p) (searchResults_html p)
    (chatInput_value p) (chatMessages p) (addLinkModal_hidden p) (addLinkForm p)
    (addLinkForm_initial p) v (importText_value p)
    (importCategory_value p) (importAddedBy_value p) (commandResults_html p)
    (categoryFilters p) (linkCards p) (notifications p) (clock p) (ticks p) (trace p).

Definition set_importText_value (v : jsstring) (p : Page) : Page :=
  mkPage (isSearchMode p) (searchTimeout p) (searchResults_hidden p) (searchResults_html p)
    (chatInput_value p) (chatMessages p) (addLinkModal_hidden p) (addLinkForm p)
    (addLinkForm_initial p) (importModal_hidden p) v
    (importCategory_value p) (importAddedBy_value p) (commandResults_html p)
    (categoryFilters p) (linkCards p) (notifications p) (clock p) (ticks p) (trace p).

Definition set_commandResults_html (v : Markup) (p : Page) : Page :=
  mkPage (isSearchMode p) (searchTimeout p) (searchResults_hidden p) (searchResults_html p)
    (chatInput_value p) (chatMessages p) (addLinkModal_hidden p) (addLinkForm p)
    (addLinkForm_initial p) (importModal_hidden p) (importText_value p)
    (importCategory_value p) (importAddedBy_value p) v
    (categoryFilters p) (linkCards p) (notifications p) (clock p) (ticks p) (trace p).

Definition set_categoryFilters (v : list FilterButton) (p : Page) : Page :=
  mkPage (isSearchMode p) (searchTimeout p) (searchResults_hidden p) (searchResults_html p)
    (chatInput_value p) (chatMessages p) (addLinkModal_hidden p) (addLinkForm p)
    (addLinkForm_initial p) (importModal_hidden p) (importText_value p)
    (importCategory_value p) (importAddedBy_value p) (commandResults_html p)
    v (linkCards p) (notifications p) (clock p) (ticks p) (trace p).

Definition set_linkCards (v : list LinkCard) (p : Page) : Page :=
  mkPage (isSearchMode p) (searchTimeout p) (searchResults_hidden p) (searchResults_html p)
    (chatInput_value p) (chatMessages p) (addLinkModal_hidden p) (addLinkForm p)
    (addLinkForm_initial p) (importModal_hidden p) (importText_value p)
    (importCategory_value p) (importAddedBy_value p) (commandResults_html p)
    (categoryFilters p) v (notifications p) (clock p) (ticks p) (trace p).

Definition set_notifications (v : list Notification) (p : Page) : Page :=
  mkPage (isSearchMode p) (searchTimeout p) (searchResults_hidden p) (searchResults_html p)
    (chatInput_value p) (chatMessages p) (addLinkModal_hidden p) (addLinkForm p)
    (addLinkForm_initial p) (importModal_hidden p) (importText_value p)
    (importCategory_value p) (importAddedBy_value p) (commandResults_html p)
    (categoryFilters p) (linkCards p) v (clock p) (ticks p) (trace p).

Definition set_ticks (v : nat) (p : Page) : Page :=
  mkPage (isSearchMode p) (searchTimeout p) (searchResults_hidden p) (searchResults_html p)
    (chatInput_value p) (chatMessages p) (addLinkModal_hidden p) (addLinkForm p)
    (addLinkForm_initial p) (importModal_hidden p) (importText_value p)
    (importCategory_value p) (importAddedBy_value p) (commandResults_html p)
    (categoryFilters p) (linkCards p) (notifications p) (clock p) v (trace p).

Definition set_trace (v : list Effect) (p : Page) : Page :=
  mkPage (isSearchMode p) (searchTimeout p) (searchResults_hidden p) (searchResults_html p)
    (chatInput_value p) (chatMessages p) (addLinkModal_hidden p) (addLinkForm p)
    (addLinkForm_initial p) (importModal_hidden p) (importText_value p)
    (importCategory_value p) (importAddedBy_value p) (commandResults_html p)
    (categoryFilters p) (linkCards p) (notifications p) (clock p) (ticks p) v.

(** ** Handlers as programs

    A program runs on a page and either returns or throws; what it did to
    the page before throwing stays done. *)

Inductive Result (A : Type) : Type :=
| Ok (a : A)
| Throw.
Arguments Ok {A} a.
Arguments Throw {A}.

Definition M (A : Type) : Type := Page -> Result A * Page.

Definition ret {A} (a : A) : M A := fun p => (Ok a, p).

Definition bind {A B} (c : M A) (k : A -> M B) : M B :=
  fun p =>
    match c p with
    | (Ok a, p') => k a p'
    | (Throw, p') => (Throw, p')
    end.

Definition throw {A} : M A := fun p => (Throw, p).

(** [try { body } catch (error) { handler }] *)
Definition try_catch {A} (body handler : M A) : M A :=
  fun p =>
    match body p with
    | (Ok a, p') => (Ok a, p')
    | (Throw, p') => handler p'
    end.

Declare Scope prog_scope.
Delimit Scope prog_scope with prog.
Notation "x <- c ;; k" := (bind c (fun x => k))
  (at level 61, c at next level, right associativity) : prog_scope.
Notation "c ;; k" := (bind c (fun _ => k))
  (at level 61, right associativity) : prog_scope.
Open Scope prog_scope.

Definition get {A} (f : Page -> A) : M A := fun p => (Ok (f p), p).
Definition modify (f : Page -> Page) : M unit := fun p => (Ok tt, f p).

(** A property access or a call that raises a [TypeError] when it fails. *)
Definition orThrow {A} (o : option A) : M A :=
  match o with
  | Some a => ret a
  | None => throw
  end.

Fixpoint mapM {A B} (f : A -> option B) (l : list A) : option (list B) :=
  match l with
  | [] => Some []
  | a :: l' =>
      match f a with
      | Some b =>
          match mapM f l' with
          | Some bs => Some (b :: bs)
          | None => None
          end
      | None => None
      end
  end.

Definition page_after {A} (c : M A) (p : Page) : Page := snd (c p).
Definition result_of {A} (c : M A) (p : Page) : Result A := fst (c p).

(** *** The network

    What [await fetch(...)] and [await response.json()] come to: the request
    fails, or a response arrives with its [ok] flag and a body that parses
    as JSON or does not. *)

Inductive FetchOutcome : Type :=
| NetworkError
| Response (ok : bool) (body : option JsVal).

(** An [async] function after its synchronous prefix: finished, or waiting
    for the outcome of the request it sent. *)
Inductive Async : Type :=
| Done
| Await (k : FetchOutcome -> M unit).

(** [async function f() { try { prefix; await ...; rest } catch { handler } }]:
    [body] is the prefix and returns the rest. *)
Definition async_try (body : M (FetchOutcome -> M unit)) (handler : M unit) : M Async :=
  fun p =>
    match body p with
    | (Ok k, p') => (Ok (Await (fun r => try_catch (k r) handler)), p')
    | (Throw, p') =>
        match handler p' with
        | (Ok _, p'') => (Ok Done, p'')
        | (Throw, p'') => (Throw, p'')
        end
    end.

Definition resume (a : Async) (r : FetchOutcome) : M unit :=
  match a with
  | Done => ret tt
  | Await k => k r
  end.

(** The function run to its end when nothing else happens in between. *)
Definition complete (f : M Async) (r : FetchOutcome) : M unit :=
  a <- f ;; resume a r.

Definition log (e : Effect) : M unit :=
  modify (fun p => set_trace (trace p ++ [e]) p).

Definition fetch (r : Request) : M unit := log (Fetch r).

(** The value of [await response.json()] after [await fetch(...)]. *)
Definition response_json (r : FetchOutcome) : M JsVal :=
  match r with
  | NetworkError => throw
  | Response _ (Some v) => ret v
  | Response _ None => throw
  end.

(** The [ok] flag of [await fetch(...)]. *)
Definition response_ok (r : FetchOutcome) : M bool :=
  match r with
  | NetworkError => throw
  | Response ok _ => ret ok
  end.

Definition encodeURIComponent (s : jsstring) : M jsstring :=
  if isWellFormed s then ret s else throw.

Definition console_error (label : string) : M unit := log (ConsoleError label).
Definition location_reload : M unit := log LocationReload.
Definition window_open (url : JsVal) (target : string) : M unit := log (WindowOpen url target).

(** [Date.now()] *)
Definition Date_now : M Z :=
  fun p => (Ok (clock p (ticks p)), set_ticks (S (ticks p)) p).

(** *** Notifications

    The timers that fade a notification out after [duration] are not
    modelled: a notification stays in the list once shown.  The callers
    below rely on the default [duration] of 3000, written out here. *)
Definition interpolates (t : Text) : bool :=
  forallb (fun piece => match piece with Lit _ => true | Val v => stringifies v end) t.

(** A template literal: its text, or the [TypeError] of an interpolated
    value that does not convert to a string. *)
Definition template (t : Text) : M Text :=
  if interpolates t then ret t else throw.

(** The markup of the notification interpolates [message] before the
    element is appended. *)
Definition showNotification (message : Text) (type : NotificationType) (duration : Z) : M unit :=
  template message ;;
  modify (fun p => set_notifications (notifications p ++ [mkNotification message type duration]) p).

(** *** Search *)

Definition asArray (v : JsVal) : option (list JsVal) :=
  match v with
  | JArr l => Some l
  | _ => None
  end.

(** Every value of an entry converts to a string. *)
Definition itemInterpolates (i : Item) : bool :=
  (stringifies (item_url i) && stringifies (item_id i) && stringifies (item_title i)
   && stringifies (item_description i) && stringifies (item_category i)
   && stringifies (item_clicks i))%bool.

(** The values one entry's template reads from [link] and interpolates:
    [None] for the [TypeError] of a read on [null] or [undefined], or of a
    value that does not convert to a string. *)
Definition renderItem (link : JsVal) : option Item :=
  match getProp link "url", getProp link "id", getProp link "title",
        getProp link "description", getProp link "category", getProp link "clicks" with
  | Some url, Some id, Some title, Some description, Some category, Some clicks =>
      let i := mkItem url id title (js_or description (JStr [])) category
                 (js_or clicks (JNum 0)) in
      if itemInterpolates i then Some i else None
  | _, _, _, _, _, _ => None
  end.

Definition displaySearchResults (links : JsVal) : M unit :=
  len <- orThrow (getLength links) ;;
  (if strictEqualsZero len then
     modify (set_searchResults_html NoLinksFound)
   else
     arr <- orThrow (asArray links) ;;
     items <- orThrow (mapM renderItem arr) ;;
     modify (set_searchResults_html (SearchItems items))) ;;
  modify (set_searchResults_hidden false).

Definition performSearch (query : jsstring) : M Async :=
  async_try
    (q <- encodeURIComponent query ;;
     fetch (SearchRequest q) ;;
     ret (fun r => links <- response_json r ;; displaySearchResults links))
    (console_error "Search error:" ;;
     showNotification [Lit "Search failed. Please try again."] Error 3000).

(** [value] is [e.target.value].  [clearTimeout] drops the pending timer,
    [setTimeout] arms a new one that captures [query]. *)
Definition handleSearch (value : jsstring) : M unit :=
  modify (set_searchTimeout None) ;;
  let query := trim value in
  match query with
  | [] => modify (set_searchResults_hidden true)
  | _ => modify (set_searchTimeout (Some query))
  end.

(** The callback [handleSearch] passed to [setTimeout], when its 300 ms are over. *)
Definition handleSearch_timeout : M Async :=
  pending <- get searchTimeout ;;
  match pending with
  | None => ret Done
  | Some query =>
      modify (set_searchTimeout None) ;;
      mode <- get isSearchMode ;;
      if mode then performSearch query else ret Done
  end.

Definition performQuickSearch (query : jsstring) : M Async :=
  async_try
    (q <- encodeURIComponent query ;;
     fetch (SearchRequest q) ;;
     ret (fun r =>
            links <- response_json r ;;
            len <- orThrow (getLength links) ;;
            if strictEqualsZero len then
              modify (set_commandResults_html NoLinksFound)
            else
              arr <- orThrow (asArray links) ;;
              items <- orThrow (mapM renderItem (firstn 5 arr)) ;;
              modify (set_commandResults_html (QuickItems items))))
    (console_error "Quick search error:").

(** *** Modals *)

Definition closeAddLinkModal : M unit :=
  modify (set_addLinkModal_hidden true) ;;
  modify (fun p => set_addLinkForm (addLinkForm_initial p) p).   (* form.reset() *)

Definition closeImportModal : M unit :=
  modify (set_importModal_hidden true) ;;
  modify (set_importText_value []).

(** *** Link management *)

Definition handleAddLink : M Async :=
  log PreventDefault ;;
  formData <- get addLinkForm ;;
  async_try
    (fetch (AddLinkRequest formData) ;;
     ret (fun r =>
            result <- response_json r ;;
            success <- orThrow (getProp result "success") ;;
            if truthy success then
              showNotification [Lit "Link added successfully!"] Success 3000 ;;
              closeAddLinkModal ;;
              location_reload
            else
              error <- orThrow (getProp result "error") ;;
              showNotification [Val (js_or error (JStr (lit "Failed to add link")))] Error 3000))
    (console_error "Add link error:" ;;
     showNotification [Lit "Failed to add link. Please try again."] Error 3000).

Definition handleImport : M Async :=
  text <- get importText_value ;;
  let content := trim text in
  category <- get importCategory_value ;;
  name <- get importAddedBy_value ;;
  let addedBy := match name with [] => lit "Anonymous" | _ => name end in
  match content with
  | [] =>
      showNotification [Lit "Please paste some content to import"] Error 3000 ;;
      ret Done
  | _ =>
      async_try
        (fetch (ImportRequest content category addedBy) ;;
         ret (fun r =>
                result <- response_json r ;;
                success <- orThrow (getProp result "success") ;;
                if truthy success then
                  imported_count <- orThrow (getProp result "imported_count") ;;
                  message <- template
                    [Lit "Successfully imported "; Val imported_count; Lit " links!"] ;;
                  showNotification message Success 3000 ;;
                  closeImportModal ;;
                  location_reload
                else
                  error <- orThrow (getProp result "error") ;;
                  showNotification [Val (js_or error (JStr (lit "Import failed")))] Error 3000))
        (console_error "Import error:" ;;
         showNotification [Lit "Import failed. Please try again."] Error 3000)
  end.

(** *** Category filtering *)

Definition classList_remove (tokens classes : list string) : list string :=
  filter (fun c => negb (existsb (String.eqb c) tokens)) classes.

Definition classList_add (tokens classes : list string) : list string :=
  fold_left (fun cs t => if existsb (String.eqb t) cs then cs else cs ++ [t]) tokens classes.

(** [a === b] on [dataset] entries: strings, or [undefined]. *)
Definition dataset_eqb (a b : option jsstring) : bool :=
  match a, b with
  | Some x, Some y => jsstring_eqb x y
  | None, None => true
  | _, _ => false
  end.

Definition deactivate (b : FilterButton) : FilterButton :=
  mkFilterButton (fb_category b)
    (classList_add ["bg-gray-200"; "text-gray-700"]
       (classList_remove ["active"; "bg-guvi-orange"; "text-white"] (fb_classes b)))%string.

Definition activate (b : FilterButton) : FilterButton :=
  mkFilterButton (fb_category b)
    (classList_remove ["bg-gray-200"; "text-gray-700"]
       (classList_add ["active"; "bg-guvi-orange"; "text-white"] (fb_classes b)))%string.

Fixpoint update_nth {A} (n : nat) (f : A -> A) (l : list A) : list A :=
  match l, n with
  | [], _ => []
  | a :: l', O => f a :: l'
  | a :: l', S n' => a :: update_nth n' f l'
  end.

Definition showCard (category : option jsstring) (card : LinkCard) : LinkCard :=
  if (dataset_eqb category (Some (lit "all")) || dataset_eqb (lc_category card) category)%bool
  then mkLinkCard (lc_category card) "block"
  else mkLinkCard (lc_category card) "none".

(** [target] is the position of [e.target] among the [.category-filter]
    buttons; a position past the last button stands for an element that is
    not one of them and carries no [data-category]. *)
Definition handleCategoryFilter (target : nat) : M unit :=
  buttons <- get categoryFilters ;;
  let category :=
    match nth_error buttons target with
    | Some b => fb_category b
    | None => None
    end in
  modify (fun p => set_categoryFilters (map deactivate (categoryFilters p)) p) ;;
  modify (fun p => set_categoryFilters (update_nth target activate (categoryFilters p)) p) ;;
  modify (fun p => set_linkCards (map (showCard category) (linkCards p)) p).

(** *** Link interactions

    [linkId] is interpolated into the path of the request.  The callers pass
    the string of a [data-id] attribute or the literal of an inline handler
    of the page, whose conversion to a string does not throw; the request
    records the value as passed. *)

Definition trackLinkClick (linkId : JsVal) : M Async :=
  async_try
    (fetch (ClickRequest linkId) ;;
     ret (fun r => _ <- response_ok r ;; ret tt))
    (console_error "Click tracking error:").

Definition deleteLink (linkId : JsVal) : M Async :=
  async_try
    (fetch (DeleteRequest linkId) ;;
     ret (fun r =>
            ok <- response_ok r ;;
            if ok then
              showNotification [Lit "Link deleted successfully"] Success 3000 ;;
              location_reload
            else ret tt))
    (console_error "Delete error:" ;;
     showNotification [Lit "Failed to delete link"] Error 3000).

(** [trackLinkClick] is called and not awaited: what it still waits for is
    what [openLink] leaves pending. *)
Definition openLink (url linkId : JsVal) : M Async :=
  window_open url "_blank" ;;
  if truthy linkId then trackLinkClick linkId else ret Done.

(** *** Chat *)

Section Chat.

(** [v > 0] for a string, an array or an object [v]: the runtime's
    conversion of [v] to a number, compared with zero. *)
Variable toNumber_positive : JsVal -> bool.

(** [v > 0]: [None] for the [TypeError] of an array or an object that
    does not convert to a primitive. *)
Definition greaterThanZero (v : JsVal) : option bool :=
  match v with
  | JUndefined | JNull => Some false
  | JBool b => Some b
  | JNum z => Some (Z.ltb 0 z)
  | JStr _ | JArr _ | JObj _ =>
      if stringifies v then Some (toNumber_positive v) else None
  end.

(** Returns the number [n] of the new element's id, [msg-<n>].  The third
    parameter of the source, [isTemporary], is never read.  The markup
    interpolates [message] before anything is inserted. *)
Definition addChatMessage (message : Text) (sender : Sender) : M Z :=
  messageId <- Date_now ;;
  template message ;;
  modify (fun p => set_chatMessages (chatMessages p ++ [Message messageId sender message]) p) ;;
  ret messageId.

Definition chatLinkInterpolates (l : ChatLink) : bool :=
  (stringifies (cl_url l) && stringifies (cl_id l) && stringifies (cl_title l)
   && stringifies (cl_description l) && stringifies (cl_category l))%bool.

Definition renderChatLink (link : JsVal) : option ChatLink :=
  match getProp link "url", getProp link "id", getProp link "title",
        getProp link "description", getProp link "category" with
  | Some url, Some id, Some title, Some description, Some category =>
      let l := mkChatLink url id title (js_or description (JStr [])) category in
      if chatLinkInterpolates l then Some l else None
  | _, _, _, _, _ => None
  end.

Definition addChatLinks (links : JsVal) : M unit :=
  arr <- orThrow (asArray links) ;;
  items <- orThrow (mapM renderChatLink arr) ;;
  modify (fun p => set_chatMessages (chatMessages p ++ [Links items]) p).

Definition hasId (id : Z) (n : ChatNode) : bool :=
  match n with
  | Message id' _ _ => Z.eqb id id'
  | Links _ => false
  end.

Fixpoint removeFirst (id : Z) (nodes : list ChatNode) : option (list ChatNode) :=
  match nodes with
  | [] => None
  | n :: rest =>
      if hasId id n then Some rest
      else match removeFirst id rest with
           | Some rest' => Some (n :: rest')
           | None => None
           end
  end.

(** [document.getElementById('msg-<id>').remove()]: the first element in
    document order with that id, a [TypeError] when there is none.  The
    search is among the wrappers of the chat messages, the only elements the
    page records by id: this is what the code does when no markup shown on
    the page (the text of a message, of a notification or of a result) and
    no element of the template carries an id of that form; [idFreePage]
    below says so of a page. *)
Definition removeById (id : Z) : M unit :=
  nodes <- get chatMessages ;;
  nodes' <- orThrow (removeFirst id nodes) ;;
  modify (set_chatMessages nodes').

Definition sendChatMessage : M Async :=
  value <- get chatInput_value ;;
  let message := trim value in
  match message with
  | [] => ret Done
  | _ =>
      addChatMessage [Val (JStr message)] User ;;
      modify (set_chatInput_value []) ;;
      thinkingId <- addChatMessage [Lit "🤔 Thinking..."] AI ;;
      async_try
        (fetch (ChatRequest message) ;;
         ret (fun r =>
                data <- response_json r ;;
                removeById thinkingId ;;
                response <- orThrow (getProp data "response") ;;
                addChatMessage [Val response] AI ;;
                relevant_links <- orThrow (getProp data "relevant_links") ;;
                if truthy relevant_links then
                  len <- orThrow (getLength relevant_links) ;;
                  positive <- orThrow (greaterThanZero len) ;;
                  if positive then addChatLinks relevant_links else ret tt
                else ret tt))
        (removeById thinkingId ;;
         addChatMessage [Lit "Sorry, I encountered an error. Please try again."] AI ;;
         console_error "Chat error:")
  end.

End Chat.

(** ** The server side of the contract

    [app.py] serves the endpoints the controller calls; it is not among the
    sources.  The link store is written here after sections 3 to 5 of the
    specification. *)

Module Server.

(** Modelled from the spec: the Link entity of section 3 (the route
    handlers and the table behind them are missing). *)
Record Link : Type := mkLink {
  id : Z;
  title : jsstring;
  url : jsstring;
  description : option jsstring;
  category : jsstring;
  added_by : jsstring;
  created_at : Z;
  clicks : Z
}.

(** Modelled from the spec: the Link Store's backing table, which is
    missing: the links, newest first. *)
Definition Store := list Link.

Fixpoint find (i : Z) (s : Store) : option Link :=
  match s with
  | [] => None
  | l :: s' => if Z.eqb (id l) i then Some l else find i s'
  end.

Definition freshId (s : Store) : Z :=
  Z.succ (fold_right (fun l m => Z.max (id l) m) 0 s).

Definition click (l : Link) : Link :=
  mkLink (id l) (title l) (url l) (description l) (category l) (added_by l)
    (created_at l) (clicks l + 1).

Section Store.

(** The syntactic check of an absolute URL, which the specification
    names and does not define. *)
Variable validUrl : jsstring -> bool.

(** Modelled from the spec: [create] of section 4.1, which is missing:
    fails on an empty title or a malformed url, otherwise stores a link
    with a new id, [clicks = 0], [created_at = now] and the defaults
    "general" and "Anonymous". *)
Definition create (now : Z) (t u : jsstring) (d c a : option jsstring)
    (s : Store) : option (Link * Store) :=
  match t with
  | [] => None
  | _ =>
      if validUrl u then
        let l := mkLink (freshId s) t u d
                   (match c with Some c' => c' | None => lit "general" end)
                   (match a with Some a' => a' | None => lit "Anonymous" end)
                   now 0 in
        Some (l, l :: s)
      else None
  end.

(** Modelled from the spec: [incrementClicks] of section 4.1, which is
    missing: one atomic update of the row, [NotFound] ([None]) when the
    id is not stored. *)
Definition incrementClicks (i : Z) (s : Store) : option (Link * Store) :=
  match find i s with
  | Some l => Some (click l, map (fun x => if Z.eqb (id x) i then click x else x) s)
  | None => None
  end.

(** Modelled from the spec: [delete] of section 4.1, which is missing. *)
Definition delete (i : Z) (s : Store) : option Store :=
  match find i s with
  | Some _ => Some (filter (fun x => negb (Z.eqb (id x) i)) s)
  | None => None
  end.

(** Modelled from the spec: the requests of section 5, which are handled
    independently and may run concurrently; each is one atomic access to
    the table, so a concurrent run is an interleaving of them. *)
Inductive Op : Type :=
| OpCreate (now : Z) (t u : jsstring) (d c a : option jsstring)
| OpIncrementClicks (i : Z)
| OpDelete (i : Z)
| OpRead.                      (* list, search, chat, count *)

Definition step (s : Store) (o : Op) : Store :=
  match o with
  | OpCreate now t u d c a =>
      match create now t u d c a s with Some (_, s') => s' | None => s end
  | OpIncrementClicks i =>
      match incrementClicks i s with Some (_, s') => s' | None => s end
  | OpDelete i =>
      match delete i s with Some s' => s' | None => s end
  | OpRead => s
  end.

Definition run (schedule : list Op) (s : Store) : Store :=
  fold_left step schedule s.

Definition isIncrementOf (i : Z) (o : Op) : bool :=
  match o with
  | OpIncrementClicks j => Z.eqb j i
  | _ => false
  end.

Definition isDeleteOf (i : Z) (o : Op) : bool :=
  match o with
  | OpDelete j => Z.eqb j i
  | _ => false
  end.

End Store.

End Server.

(** ** Operations and their failures, as the controller sees them *)

Inductive Operation : Type :=
| AddLink
| BulkImport
| Delete (linkId : JsVal)
| ClickIncrement (linkId : JsVal).

Definition handler (op : Operation) : M Async :=
  match op with
  | AddLink => handleAddLink
  | BulkImport => handleImport
  | Delete linkId => deleteLink linkId
  | ClickIncrement linkId => trackLinkClick linkId
  end.

(** The body of the response is JSON with a truthy [success]. *)
Definition reportsSuccess (r : FetchOutcome) : bool :=
  match r with
  | Response _ (Some v) =>
      match getProp v "success" with
      | Some s => truthy s
      | None => false
      end
  | _ => false
  end.

(** The response arrived with a success status. *)
Definition statusOk (r : FetchOutcome) : bool :=
  match r with
  | Response ok _ => ok
  | NetworkError => false
  end.

(** [/add_link] and [/import_from_text] signal success in the body,
    [/delete_link] and [/click_link] by the HTTP status. *)
Definition failed (op : Operation) (r : FetchOutcome) : bool :=
  match op with
  | AddLink | BulkImport => negb (reportsSuccess r)
  | Delete _ | ClickIncrement _ => negb (statusOk r)
  end.

(** One error notification was added to the page. *)
Definition notified (p p' : Page) : Prop :=
  exists n, n_type n = Error /\ notifications p' = notifications p ++ [n].

(** Nothing of the page changed but the notifications and the trace, and
    the page was not reloaded. *)
Definition stateKept (p p' : Page) : Prop :=
  p' = set_trace (trace p') (set_notifications (notifications p') p)
  /\ exists es, trace p' = trace p ++ es /\ ~ In LocationReload es.

(** The failure of [op] with outcome [r] on page [p] is shown to the user
    and changes nothing else. *)
Definition surfacesFailure (op : Operation) (r : FetchOutcome) (p : Page) : Prop :=
  let p' := page_after (complete (handler op) r) p in
  notified p p' /\ stateKept p p'.

(** The requests of a trace, in order. *)
Fixpoint requests (es : list Effect) : list Request :=
  match es with
  | [] => []
  | Fetch r :: es' => r :: requests es'
  | _ :: es' => requests es'
  end.

(** The values the templates show for a link object with properties [props]. *)
Definition itemOf (props : list (jsstring * JsVal)) : Item :=
  mkItem (lookup (lit "url") props) (lookup (lit "id") props) (lookup (lit "title") props)
    (js_or (lookup (lit "description") props) (JStr []))
    (lookup (lit "category") props)
    (js_or (lookup (lit "clicks") props) (JNum 0)).

(** A page with nothing on it, in search mode, for examples. *)
Definition emptyPage : Page :=
  mkPage true None true (Static "") [] [] true [] [] true [] [] [] (Static "")
    [] [] [] (fun n => Z.of_nat n) 0%nat [].

(** ** The rest of the controller *)

Definition set_isSearchMode (v : bool) (p : Page) : Page :=
  mkPage v (searchTimeout p) (searchResults_hidden p) (searchResults_html p)
    (chatInput_value p) (chatMessages p) (addLinkModal_hidden p) (addLinkForm p)
    (addLinkForm_initial p) (importModal_hidden p) (importText_value p)
    (importCategory_value p) (importAddedBy_value p) (commandResults_html p)
    (categoryFilters p) (linkCards p) (notifications p) (clock p) (ticks p) (trace p).

(** *** Clicks anywhere in the document *)

(** What [handleLinkClick] reads of an element. *)
Record Element : Type := mkElement {
  el_classes : list string;         (* classList *)
  el_dataset_id : option jsstring   (* dataset.id *)
}.

(** [el.classList.contains(token)] *)
Definition classList_contains (token : string) (el : Element) : bool :=
  existsb (String.eqb token) (el_classes el).

(** [el.closest('.' + token)], with [path] the element followed by its
    ancestors, innermost first. *)
Definition closest (token : string) (path : list Element) : option Element :=
  find (classList_contains token) path.

(** A [dataset] entry as a value: a string, or [undefined]. *)
Definition dataset_value (o : option jsstring) : JsVal :=
  match o with
  | Some s => JStr s
  | None => JUndefined
  end.

(** [target] is [e.target], [ancestors] its ancestors from the parent up,
    and [confirmed] what [confirm(...)] answers when it is asked.  The two
    calls are not awaited: what they wait for stays pending. *)
Definition handleLinkClick (target : Element) (ancestors : list Element)
    (confirmed : bool) : M Async :=
  if classList_contains "click-link" target then
    trackLinkClick (dataset_value (el_dataset_id target))
  else
    match closest "delete-link" (target :: ancestors) with
    | Some button =>
        let linkId := js_or (dataset_value (el_dataset_id target))
                            (dataset_value (el_dataset_id button)) in
        if confirmed then deleteLink linkId else ret Done
    | None => ret Done
    end.

(** [inInput] and [inResults] are [searchInput.contains(e.target)] and
    [searchResults.contains(e.target)]. *)
Definition handleOutsideClick (inInput inResults : bool) : M unit :=
  if (negb inInput && negb inResults)%bool then modify (set_searchResults_hidden true)
  else ret tt.

(** A click event at [document]: its two listeners, in the order
    [setupEventListeners] registers them. *)
Definition documentClick (inInput inResults : bool) (target : Element)
    (ancestors : list Element) (confirmed : bool) : M Async :=
  handleOutsideClick inInput inResults ;;
  handleLinkClick target ancestors confirmed.

(** *** Typing *)

(** The [input] events of [values], oldest first, with no timer firing in
    between. *)
Fixpoint handleSearch_each (values : list jsstring) : M unit :=
  match values with
  | [] => ret tt
  | value :: rest => handleSearch value ;; handleSearch_each rest
  end.

(** *** Reading a trace and a conversation *)

(** The number of [location.reload()] calls in a trace. *)
Fixpoint reloads (es : list Effect) : nat :=
  match es with
  | [] => 0%nat
  | LocationReload :: es' => S (reloads es')
  | _ :: es' => reloads es'
  end.




(** A program keeps [P] when every page that satisfies [P] still does once
    the program has returned or thrown. *)
Definition preserves (P : Page -> Prop) {A} (c : M A) : Prop :=
  forall p, P p -> P (snd (c p)).

(** The [imported_count] of a response, [undefined] when it has none. *)
Definition importedCount (r : FetchOutcome) : JsVal :=
  match r with
  | Response _ (Some v) =>
      match getProp v "imported_count" with
      | Some count => count
      | None => JUndefined
      end
  | _ => JUndefined
  end.

(** The three values [showStats] reads from a response, when its body is
    JSON other than [null]. *)
Definition statsFields (r : FetchOutcome) : option (JsVal * JsVal * JsVal) :=
  match r with
  | Response _ (Some stats) =>
      match getProp stats "total_links", getProp stats "links_this_week",
            getProp stats "categories" with
      | Some total, Some weekly, Some categories => Some (total, weekly, categories)
      | _, _, _ => None
      end
  | _ => None
  end.

(** The requests sent so far are [sent]. *)
Definition sentSoFar (sent : list Request) (p : Page) : Prop := requests (trace p) = sent.






(** ** The document around the page

    The handlers below also touch elements that [Page] does not hold: the
    chat panel, the command palette and its input, the two mode buttons, the
    search input's placeholder and the two statistics counters.  [Document]
    adds them to the page; requests to [/stats] are counted in it. *)

Record Document : Type := mkDocument {
  page : Page;
  chatInterface_hidden : bool;
  commandPalette_hidden : bool;
  commandInput_focused : bool;         (* input.focus() was called *)
  commandInput_listening : bool;       (* handleCommandInput is registered on it *)
  searchMode_classes : list string;    (* classList of #searchMode *)
  chatMode_classes : list string;      (* classList of #chatMode *)
  searchInput_placeholder : string;
  totalLinks_textContent : JsVal;      (* the value last assigned to it *)
  weeklyLinks_textContent : JsVal;
  statsRequests : nat                  (* GET /stats sent so far *)
}.

Definition set_page (v : Page) (d : Document) : Document :=
  mkDocument v (chatInterface_hidden d) (commandPalette_hidden d) (commandInput_focused d)
    (commandInput_listening d) (searchMode_classes d) (chatMode_classes d)
    (searchInput_placeholder d) (totalLinks_textContent d) (weeklyLinks_textContent d)
    (statsRequests d).

Definition set_chatInterface_hidden (v : bool) (d : Document) : Document :=
  mkDocument (page d) v (commandPalette_hidden d) (commandInput_focused d)
    (commandInput_listening d) (searchMode_classes d) (chatMode_classes d)
    (searchInput_placeholder d) (totalLinks_textContent d) (weeklyLinks_textContent d)
    (statsRequests d).

Definition set_commandPalette_hidden (v : bool) (d : Document) : Document :=
  mkDocument (page d) (chatInterface_hidden d) v (commandInput_focused d)
    (commandInput_listening d) (searchMode_classes d) (chatMode_classes d)
    (searchInput_placeholder d) (totalLinks_textContent d) (weeklyLinks_textContent d)
    (statsRequests d).

Definition set_commandInput_focused (v : bool) (d : Document) : Document :=
  mkDocument (page d) (chatInterface_hidden d) (commandPalette_hidden d) v
    (commandInput_listening d) (searchMode_classes d) (chatMode_classes d)
    (searchInput_placeholder d) (totalLinks_textContent d) (weeklyLinks_textContent d)
    (statsRequests d).

Definition set_commandInput_listening (v : bool) (d : Document) : Document :=
  mkDocument (page d) (chatInterface_hidden d) (commandPalette_hidden d)
    (commandInput_focused d) v (searchMode_classes d) (chatMode_classes d)
    (searchInput_placeholder d) (totalLinks_textContent d) (weeklyLinks_textContent d)
    (statsRequests d).

Definition set_searchMode_classes (v : list string) (d : Document) : Document :=
  mkDocument (page d) (chatInterface_hidden d) (commandPalette_hidden d)
    (commandInput_focused d) (commandInput_listening d) v (chatMode_classes d)
    (searchInput_placeholder d) (totalLinks_textContent d) (weeklyLinks_textContent d)
    (statsRequests d).

Definition set_chatMode_classes (v : list string) (d : Document) : Document :=
  mkDocument (page d) (chatInterface_hidden d) (commandPalette_hidden d)
    (commandInput_focused d) (commandInput_listening d) (searchMode_classes d) v
    (searchInput_placeholder d) (totalLinks_textContent d) (weeklyLinks_textContent d)
    (statsRequests d).

Definition set_searchInput_placeholder (v : string) (d : Document) : Document :=
  mkDocument (page d) (chatInterface_hidden d) (commandPalette_hidden d)
    (commandInput_focused d) (commandInput_listening d) (searchMode_classes d)
    (chatMode_classes d) v (totalLinks_textContent d) (weeklyLinks_textContent d)
    (statsRequests d).

Definition set_totalLinks_textContent (v : JsVal) (d : Document) : Document :=
  mkDocument (page d) (chatInterface_hidden d) (commandPalette_hidden d)
    (commandInput_focused d) (commandInput_listening d) (searchMode_classes d)
    (chatMode_classes d) (searchInput_placeholder d) v (weeklyLinks_textContent d)
    (statsRequests d).

Definition set_weeklyLinks_textContent (v : JsVal) (d : Document) : Document :=
  mkDocument (page d) (chatInterface_hidden d) (commandPalette_hidden d)
    (commandInput_focused d) (commandInput_listening d) (searchMode_classes d)
    (chatMode_classes d) (searchInput_placeholder d) (totalLinks_textContent d) v
    (statsRequests d).

Definition set_statsRequests (v : nat) (d : Document) : Document :=
  mkDocument (page d) (chatInterface_hidden d) (commandPalette_hidden d)
    (commandInput_focused d) (commandInput_listening d) (searchMode_classes d)
    (chatMode_classes d) (searchInput_placeholder d) (totalLinks_textContent d)
    (weeklyLinks_textContent d) v.

(** Programs on the document: the same monad, one level up. *)
Definition D (A : Type) : Type := Document -> Result A * Document.

Definition retD {A} (a : A) : D A := fun d => (Ok a, d).

Definition bindD {A B} (c : D A) (k : A -> D B) : D B :=
  fun d =>
    match c d with
    | (Ok a, d') => k a d'
    | (Throw, d') => (Throw, d')
    end.

Definition try_catchD {A} (body handler : D A) : D A :=
  fun d =>
    match body d with
    | (Ok a, d') => (Ok a, d')
    | (Throw, d') => handler d'
    end.

Definition modifyD (f : Document -> Document) : D unit := fun d => (Ok tt, f d).

(** A program on the page, run on the page of the document. *)
Definition liftD {A} (c : M A) : D A :=
  fun d => let (r, p') := c (page d) in (r, set_page p' d).

Declare Scope doc_scope.
Delimit Scope doc_scope with doc.
Notation "x <- c ;; k" := (bindD c (fun x => k))
  (at level 61, c at next level, right associativity) : doc_scope.
Notation "c ;; k" := (bindD c (fun _ => k))
  (at level 61, right associativity) : doc_scope.

Inductive AsyncD : Type :=
| DoneD
| AwaitD (k : FetchOutcome -> D unit).


Definition async_tryD (body : D (FetchOutcome -> D unit)) (handler : D unit) : D AsyncD :=
  fun d =>
    match body d with
    | (Ok k, d') => (Ok (AwaitD (fun r => try_catchD (k r) handler)), d')
    | (Throw, d') =>
        match handler d' with
        | (Ok _, d'') => (Ok DoneD, d'')
        | (Throw, d'') => (Throw, d'')
        end
    end.

Definition resumeD (a : AsyncD) (r : FetchOutcome) : D unit :=
  match a with
  | DoneD => retD tt
  | AwaitD k => k r
  end.

Definition completeD (f : D AsyncD) (r : FetchOutcome) : D unit :=
  bindD f (fun a => resumeD a r).

Definition document_after {A} (c : D A) (d : Document) : Document := snd (c d).

(** *** Mode switching *)

Definition switchToSearchMode : D unit :=
  (liftD (modify (set_isSearchMode true)) ;;
   modifyD (fun d => set_searchMode_classes
                       (classList_add ["bg-white"; "text-guvi-dark"; "shadow-sm"]%string
                          (searchMode_classes d)) d) ;;
   modifyD (fun d => set_searchMode_classes
                       (classList_remove ["text-gray-600"]%string (searchMode_classes d)) d) ;;
   modifyD (fun d => set_chatMode_classes
                       (classList_remove ["bg-white"; "text-guvi-dark"; "shadow-sm"]%string
                          (chatMode_classes d)) d) ;;
   modifyD (fun d => set_chatMode_classes
                       (classList_add ["text-gray-600"]%string (chatMode_classes d)) d) ;;
   modifyD (set_chatInterface_hidden true) ;;
   modifyD (set_searchInput_placeholder
              "Search links, ask AI anything... (Ctrl+K for quick search)"))%doc.

Definition switchToChatMode : D unit :=
  (liftD (modify (set_isSearchMode false)) ;;
   modifyD (fun d => set_chatMode_classes
                       (classList_add ["bg-white"; "text-guvi-dark"; "shadow-sm"]%string
                          (chatMode_classes d)) d) ;;
   modifyD (fun d => set_chatMode_classes
                       (classList_remove ["text-gray-600"]%string (chatMode_classes d)) d) ;;
   modifyD (fun d => set_searchMode_classes
                       (classList_remove ["bg-white"; "text-guvi-dark"; "shadow-sm"]%string
                          (searchMode_classes d)) d) ;;
   modifyD (fun d => set_searchMode_classes
                       (classList_add ["text-gray-600"]%string (searchMode_classes d)) d) ;;
   modifyD (set_chatInterface_hidden false) ;;
   liftD (modify (set_searchResults_hidden true)) ;;
   modifyD (set_searchInput_placeholder
              "Ask AI about links... (e.g., 'Show me machine learning resources')"))%doc.

(** *** Statistics

    An assignment to [textContent] converts the value to a string first,
    and throws as a template does when the conversion fails. *)

Definition showStats : D AsyncD :=
  async_tryD
    (modifyD (fun d => set_statsRequests (S (statsRequests d)) d) ;;
     retD (fun r =>
             stats <- liftD (response_json r) ;;
             total_links <- liftD (orThrow (getProp stats "total_links")) ;;
             liftD (template [Val total_links]) ;;
             modifyD (set_totalLinks_textContent total_links) ;;
             links_this_week <- liftD (orThrow (getProp stats "links_this_week")) ;;
             liftD (template [Val links_this_week]) ;;
             modifyD (set_weeklyLinks_textContent links_this_week) ;;
             categories <- liftD (orThrow (getProp stats "categories")) ;;
             message <- liftD (template
                                 [Lit "📊 Total: "; Val total_links;
                                  Lit " links | This week: "; Val links_this_week;
                                  Lit " | Categories: "; Val categories]) ;;
             liftD (showNotification message Success 5000)))%doc
    (liftD (console_error "Stats error:") ;;
     liftD (showNotification [Lit "Failed to load statistics"] Error 3000))%doc.

(** *** Modals and the palette *)

Definition openAddLinkModal : D unit := liftD (modify (set_addLinkModal_hidden false)).

Definition openImportModal : D unit := liftD (modify (set_importModal_hidden false)).

Definition closeAllModals : D unit :=
  (liftD (modify (set_addLinkModal_hidden true)) ;;
   liftD (modify (set_importModal_hidden true)) ;;
   modifyD (set_commandPalette_hidden true) ;;
   liftD (modify (set_searchResults_hidden true)))%doc.

Definition toggleCommandPalette : D unit :=
  fun d =>
    if commandPalette_hidden d then
      (modifyD (set_commandPalette_hidden false) ;;
       modifyD (set_commandInput_focused true) ;;
       modifyD (set_commandInput_listening true))%doc d
    else modifyD (set_commandPalette_hidden true) d.

(** The [keydown] listener of [setupKeyboardShortcuts], for an event with
    the given [ctrlKey], [metaKey] and [key]. *)
Definition handleKeydown (ctrlKey metaKey : bool) (key : jsstring) : D unit :=
  ((if ((ctrlKey || metaKey) && jsstring_eqb key (lit "k"))%bool then
      liftD (log PreventDefault) ;; toggleCommandPalette
    else retD tt) ;;
   (if jsstring_eqb key (lit "Escape") then closeAllModals else retD tt))%doc.

(** The four commands of the palette: name, description and action.  The
    source spells this table out twice, in [handleCommandInput] and in
    [executeCommand], with the same names and actions.  The actions that are
    not [async] leave nothing pending. *)
Definition commands : list (string * string * D AsyncD) :=
  [("/add", "Add new link", (openAddLinkModal ;; retD DoneD)%doc);
   ("/import", "Import links from Google Docs", (openImportModal ;; retD DoneD)%doc);
   ("/stats", "Show team statistics", showStats);
   ("/chat", "Switch to AI chat mode", (switchToChatMode ;; retD DoneD)%doc)]%string.

Fixpoint findCommand (cmd : jsstring) (l : list (string * string * D AsyncD))
    : option (D AsyncD) :=
  match l with
  | [] => None
  | (name, _, action) :: l' =>
      if jsstring_eqb cmd (lit name) then Some action else findCommand cmd l'
  end.

Section Runtime.

(** What [Object.prototype] holds under a name, seen from a call without
    arguments: [None] when it holds nothing, [Some true] when it holds a
    function that returns, [Some false] when the call throws. *)
Variable inherited : jsstring -> option bool.

(** [String.prototype.toLowerCase] *)
Variable toLowerCase : jsstring -> jsstring.

(** [window.executeCommand]: the action of [cmd], then [closeAllModals];
    nothing when [commands[cmd]] is undefined. *)
Definition executeCommand (cmd : jsstring) : D AsyncD :=
  match findCommand cmd commands with
  | Some action => (pending <- action ;; closeAllModals ;; retD pending)%doc
  | None =>
      match inherited cmd with
      | None => retD DoneD
      | Some true => (closeAllModals ;; retD DoneD)%doc
      | Some false => fun d => (Throw, d)
      end
  end.










End Runtime.

(** *** Markup that carries no message id

    Message texts, notification texts and the values of rendered entries are
    inserted as markup, and [getElementById] searches all of it.  A string
    that holds neither an ampersand (no character reference) nor the text
    [msg-] cannot give an element an id of the form [msg-<n>]. *)










(** A document with nothing on it, around [emptyPage], for examples. *)
Definition emptyDocument : Document :=
  mkDocument emptyPage true true false false [] [] "" JUndefined JUndefined 0.

(** ** Properties *)

(** *** Strings *)

Lemma jsstring_eqb_eq (a b : jsstring) : jsstring_eqb a b = true <-> a = b.
Proof.
  revert b; induction a as [|x a IH]; intros [|y b]; simpl; split;
    try congruence; try reflexivity.
  - intros H. apply andb_true_iff in H as [Hx Hab].
    apply N.eqb_eq in Hx. apply IH in Hab. congruence.
  - intros H. injection H as -> ->.
    apply andb_true_iff. split; [apply N.eqb_refl | now apply IH].
Qed.

Lemma trimStart_blank (s : jsstring) : blank s = true -> trimStart s = [].
Proof.
  induction s as [|c s IH]; simpl; [reflexivity|].
  intros H. apply andb_true_iff in H as [Hc Hs]. now rewrite Hc, IH.
Qed.

Lemma trimStart_nil_blank (s : jsstring) : trimStart s = [] -> blank s = true.
Proof.
  induction s as [|c s IH]; simpl; [reflexivity|].
  destruct (isWhiteSpace c); [auto | discriminate].
Qed.

Lemma blank_trimStart (s : jsstring) : blank (trimStart s) = true -> blank s = true.
Proof.
  induction s as [|c s IH]; simpl; [reflexivity|].
  destruct (isWhiteSpace c) eqn:Hc; simpl; [auto|].
  rewrite Hc. discriminate.
Qed.

Lemma blank_rev (s : jsstring) : blank (rev s) = blank s.
Proof.
  unfold blank. induction s as [|c s IH]; simpl; [reflexivity|].
  rewrite forallb_app, IH. simpl. rewrite andb_true_r. apply andb_comm.
Qed.

Lemma rev_nil_inv {A} (l : list A) : rev l = [] -> l = [].
Proof.
  intros H. rewrite <- (rev_involutive l), H. reflexivity.
Qed.

(** [trim] yields the empty string exactly on the strings made of
    whitespace only. *)
Lemma trim_nil_iff (s : jsstring) : trim s = [] <-> blank s = true.
Proof.
  unfold trim, trimEnd. split.
  - intros H. apply rev_nil_inv in H. apply trimStart_nil_blank in H.
    rewrite blank_rev in H. now apply blank_trimStart.
  - intros H. rewrite (trimStart_blank s H). reflexivity.
Qed.

Lemma trim_not_blank (s : jsstring) :
  blank s = false -> exists c s', trim s = c :: s'.
Proof.
  intros H. destruct (trim s) as [|c s'] eqn:E.
  - apply trim_nil_iff in E. congruence.
  - eauto.
Qed.

(** *** Programs that keep a property of the page *)

Lemma preserves_ret (P : Page -> Prop) {A} (a : A) : preserves P (ret a).
Proof. intros p H. exact H. Qed.

Lemma preserves_throw (P : Page -> Prop) {A} : preserves P (@throw A).
Proof. intros p H. exact H. Qed.

Lemma preserves_orThrow (P : Page -> Prop) {A} (o : option A) : preserves P (orThrow o).
Proof. destruct o; intros p H; exact H. Qed.

Lemma preserves_bind (P : Page -> Prop) {A B} (c : M A) (k : A -> M B) :
  preserves P c -> (forall a, preserves P (k a)) -> preserves P (bind c k).
Proof.
  intros Hc Hk p H. unfold bind. specialize (Hc p H).
  destruct (c p) as [[a|] p']; simpl in *; [now apply Hk | exact Hc].
Qed.

Lemma preserves_try_catch (P : Page -> Prop) {A} (body handler : M A) :
  preserves P body -> preserves P handler -> preserves P (try_catch body handler).
Proof.
  intros Hb Hh p H. unfold try_catch. specialize (Hb p H).
  destruct (body p) as [[a|] p']; simpl in *; [exact Hb | now apply Hh].
Qed.

Lemma requests_app (a b : list Effect) : requests (a ++ b) = requests a ++ requests b.
Proof.
  induction a as [|e a IH]; simpl; [reflexivity|].
  destruct e; simpl; now rewrite IH.
Qed.

Lemma template_state (t : Text) (p : Page) : snd (template t p) = p.
Proof. unfold template. now destruct (interpolates t). Qed.

Lemma preserves_template (P : Page -> Prop) (t : Text) : preserves P (template t).
Proof. intros p H. now rewrite template_state. Qed.

Lemma preserves_showNotification (P : Page -> Prop) (t : Text) (ty : NotificationType)
    (duration : Z) :
  (forall p n, P p -> P (set_notifications n p)) ->
  preserves P (showNotification t ty duration).
Proof.
  intros HP. unfold showNotification.
  apply preserves_bind; [apply preserves_template|].
  intros _ p H. now apply HP.
Qed.

Lemma preserves_log (P : Page -> Prop) (e : Effect) :
  (forall p, P p -> P (set_trace (trace p ++ [e]) p)) -> preserves P (log e).
Proof. intros HP p H. now apply HP. Qed.

Lemma preserves_response_json (P : Page -> Prop) (r : FetchOutcome) :
  preserves P (response_json r).
Proof. destruct r as [|ok [v|]]; intros p H; exact H. Qed.

Lemma preserves_response_ok (P : Page -> Prop) (r : FetchOutcome) :
  preserves P (response_ok r).
Proof. destruct r as [|ok body]; intros p H; exact H. Qed.

Lemma sentSoFar_notifications (sent : list Request) (p : Page) (n : list Notification) :
  sentSoFar sent p -> sentSoFar sent (set_notifications n p).
Proof. exact (fun H => H). Qed.

Lemma sentSoFar_log (sent : list Request) (e : Effect) (p : Page) :
  (forall r, e <> Fetch r) ->
  sentSoFar sent p -> sentSoFar sent (set_trace (trace p ++ [e]) p).
Proof.
  unfold sentSoFar. intros He H. cbn. rewrite requests_app, H.
  destruct e; cbn; try apply app_nil_r. now elim (He r).
Qed.

Ltac keeps_requests :=
  repeat match goal with
    | |- preserves _ (bind _ _) => apply preserves_bind; [|intros ?]
    | |- preserves _ (try_catch _ _) => apply preserves_try_catch
    | |- preserves _ (ret _) => apply preserves_ret
    | |- preserves _ throw => apply preserves_throw
    | |- preserves _ (orThrow _) => apply preserves_orThrow
    | |- preserves _ (template _) => apply preserves_template
    | |- preserves _ (response_json _) => apply preserves_response_json
    | |- preserves _ (response_ok _) => apply preserves_response_ok
    | |- preserves _ (showNotification _ _ _) =>
        apply preserves_showNotification; intros; assumption
    | |- preserves _ (console_error _) =>
        apply preserves_log; intros; apply sentSoFar_log; [discriminate | assumption]
    | |- preserves _ location_reload =>
        apply preserves_log; intros; apply sentSoFar_log; [discriminate | assumption]
    | |- preserves _ (if ?b then _ else _) => destruct b
    | |- preserves _ closeImportModal => unfold closeImportModal
    | |- preserves _ closeAddLinkModal => unfold closeAddLinkModal
    | |- preserves _ (modify _) => let p := fresh in let H := fresh in intros p H; exact H
    end.

(** *** Chat input *)

(** C10. When the chat input holds whitespace only, [sendChatMessage] does
    nothing: the page, its trace of requests and its conversation included,
    is left exactly as it was, and nothing is left pending. *)
Theorem sendChatMessage_blank_is_noop (toNumber_positive : JsVal -> bool) (p : Page) :
  blank (chatInput_value p) = true ->
  sendChatMessage toNumber_positive p = (Ok Done, p).
Proof.
  intros H. apply trim_nil_iff in H.
  unfold sendChatMessage, bind, get. rewrite H. reflexivity.
Qed.

Lemma sendChatMessage_blank_is_noop_witness :
  let p := set_chatInput_value (lit "   ") emptyPage in
  blank (chatInput_value p) = true
  /\ sendChatMessage (fun _ => false) p = (Ok Done, p).
Proof.
  split; [reflexivity|].
  apply (sendChatMessage_blank_is_noop (fun _ => false)
           (set_chatInput_value (lit "   ") emptyPage)).
  reflexivity.
Defined.

(** *** Opening a link *)

(** C9. [openLink] always opens the URL in a new tab, and sends the
    click-tracking request for the id exactly when the id is truthy; the ids
    0, null and undefined are not truthy. *)
Theorem openLink_tracks_iff_truthy (url linkId : JsVal) (p : Page) :
  trace (page_after (openLink url linkId) p)
  = trace p ++ WindowOpen url "_blank"
            :: (if truthy linkId then [Fetch (ClickRequest linkId)] else [])
  /\ truthy (JNum 0) = false /\ truthy JNull = false /\ truthy JUndefined = false.
Proof.
  split; [|repeat split].
  unfold openLink, page_after, window_open, log, bind, modify.
  destruct (truthy linkId); simpl.
  - rewrite <- app_assoc. reflexivity.
  - reflexivity.
Qed.

(** *** Search *)

(** C2. A search input of whitespace only sends no request, arms no timer
    and hides the results pane, so the timer's callback has nothing to do;
    an empty array from the search endpoint is rendered as the "no links
    found" state, both by [displaySearchResults] alone and at the end of the
    whole path from a non-blank input in search mode. *)
Theorem handleSearch_blank_and_no_matches (value : jsstring) (p : Page) (ok : bool) :
  (blank value = true ->
     let p1 := set_searchResults_hidden true (set_searchTimeout None p) in
     handleSearch value p = (Ok tt, p1)
     /\ trace p1 = trace p
     /\ handleSearch_timeout p1 = (Ok Done, p1))
  /\ (let p2 := page_after (displaySearchResults (JArr [])) p in
      result_of (displaySearchResults (JArr [])) p = Ok tt
      /\ searchResults_html p2 = NoLinksFound
      /\ searchResults_hidden p2 = false)
  /\ (blank value = false -> isSearchMode p = true -> isWellFormed (trim value) = true ->
      let p1 := page_after (handleSearch value) p in
      let p2 := page_after (complete handleSearch_timeout (Response ok (Some (JArr [])))) p1 in
      trace p2 = trace p ++ [Fetch (SearchRequest (trim value))]
      /\ searchResults_html p2 = NoLinksFound
      /\ searchResults_hidden p2 = false).
Proof.
  split; [|split].
  - intros H. apply trim_nil_iff in H.
    unfold handleSearch, bind, modify. rewrite H. simpl.
    repeat split.
  - repeat split.
  - intros Hb Hm Hw. destruct (trim_not_blank value Hb) as (c & s' & E).
    unfold handleSearch, page_after, bind, modify. rewrite E in *. simpl.
    unfold complete, handleSearch_timeout, bind, get, modify. simpl.
    rewrite Hm. unfold performSearch, async_try, bind, encodeURIComponent.
    rewrite Hw. simpl. repeat split.
Qed.

(** *** Bulk import *)

Lemma handleImport_blank (p : Page) :
  blank (importText_value p) = true ->
  handleImport p
  = (Ok Done,
     set_notifications
       (notifications p
        ++ [mkNotification [Lit "Please paste some content to import"] Error 3000]) p).
Proof.
  intros H. apply trim_nil_iff in H.
  unfold handleImport, bind, get. rewrite H. reflexivity.
Qed.

Lemma handleImport_sends (p : Page) :
  blank (importText_value p) = false ->
  exists k,
    handleImport p
    = (Ok (Await k),
       set_trace
         (trace p
          ++ [Fetch (ImportRequest (trim (importText_value p)) (importCategory_value p)
                       (match importAddedBy_value p with
                        | [] => lit "Anonymous"
                        | _ => importAddedBy_value p
                        end))]) p)
    /\ forall r p1, requests (trace (page_after (k r) p1)) = requests (trace p1).
Proof.
  intros H. destruct (trim_not_blank _ H) as (c & s' & E).
  unfold handleImport, bind, get. rewrite E.
  unfold async_try, bind, fetch, log, modify. simpl.
  eexists. split; [reflexivity|].
  intros r p1. unfold page_after.
  change (sentSoFar (requests (trace p1))
            (snd (try_catch
                    (result <- response_json r ;;
                     success <- orThrow (getProp result "success") ;;
                     if truthy success then
                       imported_count <- orThrow (getProp result "imported_count") ;;
                       message <- template
                         [Lit "Successfully imported "; Val imported_count; Lit " links!"] ;;
                       showNotification message Success 3000 ;;
                       closeImportModal ;;
                       location_reload
                     else
                       error <- orThrow (getProp result "error") ;;
                       showNotification [Val (js_or error (JStr (lit "Import failed")))]
                         Error 3000)
                    (console_error "Import error:" ;;
                     showNotification [Lit "Import failed. Please try again."] Error 3000)
                    p1))).
  assert (Hk : preserves (sentSoFar (requests (trace p1)))
                 (try_catch
                    (result <- response_json r ;;
                     success <- orThrow (getProp result "success") ;;
                     if truthy success then
                       imported_count <- orThrow (getProp result "imported_count") ;;
                       message <- template
                         [Lit "Successfully imported "; Val imported_count; Lit " links!"] ;;
                       showNotification message Success 3000 ;;
                       closeImportModal ;;
                       location_reload
                     else
                       error <- orThrow (getProp result "error") ;;
                       showNotification [Val (js_or error (JStr (lit "Import failed")))]
                         Error 3000)
                    (console_error "Import error:" ;;
                     showNotification [Lit "Import failed. Please try again."] Error 3000)))
    by keeps_requests.
  now apply Hk.
Qed.

(** C3. A bulk import whose content is empty or whitespace only sends no
    request and shows an error notification; one whose content is not blank
    sends exactly one import request, whatever the server answers. *)
Theorem handleImport_blank_or_one_request (p : Page) (r : FetchOutcome) :
  let p' := page_after (complete handleImport r) p in
  (blank (importText_value p) = true ->
     requests (trace p') = requests (trace p) /\ notified p p')
  /\ (blank (importText_value p) = false ->
      exists added_by,
        requests (trace p')
        = requests (trace p)
          ++ [ImportRequest (trim (importText_value p)) (importCategory_value p) added_by]).
Proof.
  cbv zeta. unfold complete, page_after, bind. split; intros H.
  - rewrite (handleImport_blank p H). simpl. split; [reflexivity|].
    eexists. split; [|reflexivity]. reflexivity.
  - destruct (handleImport_sends p H) as (k & E & Hk). rewrite E. simpl.
    eexists. specialize (Hk r (set_trace
         (trace p
          ++ [Fetch (ImportRequest (trim (importText_value p)) (importCategory_value p)
                       (match importAddedBy_value p with
                        | [] => lit "Anonymous"
                        | _ => importAddedBy_value p
                        end))]) p)).
    unfold page_after in Hk. rewrite Hk. simpl. rewrite requests_app. reflexivity.
Qed.

(** C7. When the importer's name field is empty and there is content to
    import, the one request sent carries [added_by = "Anonymous"]. *)
Theorem handleImport_added_by_defaults (p : Page) (r : FetchOutcome) :
  importAddedBy_value p = [] ->
  blank (importText_value p) = false ->
  requests (trace (page_after (complete handleImport r) p))
  = requests (trace p)
    ++ [ImportRequest (trim (importText_value p)) (importCategory_value p) (lit "Anonymous")].
Proof.
  intros Hname H. unfold complete, page_after, bind.
  destruct (handleImport_sends p H) as (k & E & Hk). rewrite E. simpl.
  specialize (Hk r (set_trace
         (trace p
          ++ [Fetch (ImportRequest (trim (importText_value p)) (importCategory_value p)
                       (match importAddedBy_value p with
                        | [] => lit "Anonymous"
                        | _ => importAddedBy_value p
                        end))]) p)).
  unfold page_after in Hk. rewrite Hk. simpl. rewrite requests_app, Hname. reflexivity.
Qed.

Lemma handleImport_added_by_defaults_witness :
  let p := set_importText_value (lit " Intro to ML - https://example.com/ml ") emptyPage in
  requests (trace (page_after (complete handleImport NetworkError) p))
  = [ImportRequest (lit "Intro to ML - https://example.com/ml") [] (lit "Anonymous")].
Proof.
  exact (handleImport_added_by_defaults
           (set_importText_value (lit " Intro to ML - https://example.com/ml ") emptyPage)
           NetworkError eq_refl eq_refl).
Defined.

(** *** Category filter *)

Lemma dataset_eqb_eq (a b : option jsstring) : dataset_eqb a b = true <-> a = b.
Proof.
  destruct a as [x|], b as [y|]; simpl; split; try congruence; try reflexivity.
  - intros H. apply jsstring_eqb_eq in H. congruence.
  - intros H. injection H as ->. now apply jsstring_eqb_eq.
Qed.

Lemma dataset_eqb_neq (a b : option jsstring) : dataset_eqb a b = false <-> a <> b.
Proof.
  split.
  - intros H E. apply dataset_eqb_eq in E. congruence.
  - intros H. destruct (dataset_eqb a b) eqn:E; [|reflexivity].
    apply dataset_eqb_eq in E. contradiction.
Qed.

(** C6. After a click on a category filter, with [category] the clicked
    button's [data-category]: when it is "all" every link card is displayed;
    otherwise a card is displayed when its category is the selected one and
    hidden when it is not.  No card is added, dropped or recategorised. *)
Theorem handleCategoryFilter_shows_selected (target : nat) (p : Page) :
  let category :=
    match nth_error (categoryFilters p) target with
    | Some b => fb_category b
    | None => None
    end in
  let p' := page_after (handleCategoryFilter target) p in
  List.length (linkCards p') = List.length (linkCards p)
  /\ forall i card,
      nth_error (linkCards p) i = Some card ->
      exists card',
        nth_error (linkCards p') i = Some card'
        /\ lc_category card' = lc_category card
        /\ (category = Some (lit "all") -> lc_display card' = "block"%string)
        /\ (category <> Some (lit "all") ->
            (lc_category card = category -> lc_display card' = "block"%string)
            /\ (lc_category card <> category -> lc_display card' = "none"%string)).
Proof.
  cbv zeta. unfold handleCategoryFilter, page_after, bind, get, modify. simpl.
  set (category := match nth_error (categoryFilters p) target with
                   | Some b => fb_category b
                   | None => None
                   end).
  split; [apply length_map|].
  intros i card Hi. exists (showCard category card).
  split; [now apply map_nth_error|].
  unfold showCard.
  destruct (dataset_eqb category (Some (lit "all"))) eqn:Hall; simpl.
  - apply dataset_eqb_eq in Hall. repeat split; congruence.
  - apply dataset_eqb_neq in Hall.
    destruct (dataset_eqb (lc_category card) category) eqn:Hc; simpl.
    + apply dataset_eqb_eq in Hc. repeat split; congruence.
    + apply dataset_eqb_neq in Hc. repeat split; congruence.
Qed.

(** *** Quick search *)

Lemma renderItem_object (props : list (jsstring * JsVal)) :
  renderItem (JObj props)
  = if itemInterpolates (itemOf props) then Some (itemOf props) else None.
Proof. reflexivity. Qed.

Lemma mapM_renderItem_objects (links : list (list (jsstring * JsVal))) :
  forallb (fun props => itemInterpolates (itemOf props)) links = true ->
  mapM renderItem (map JObj links) = Some (map itemOf links).
Proof.
  induction links as [|props links IH]; [reflexivity|].
  cbn [map mapM forallb]. intros H. apply andb_true_iff in H as [Hp Hl].
  rewrite renderItem_object, Hp, (IH Hl). reflexivity.
Qed.

Lemma mapM_length {A B} (f : A -> option B) (l : list A) (l' : list B) :
  mapM f l = Some l' -> List.length l' = List.length l.
Proof.
  revert l'. induction l as [|a l IH]; simpl; intros l' H.
  - injection H as <-. reflexivity.
  - destruct (f a) as [b|]; [|discriminate].
    destruct (mapM f l) as [bs|]; [|discriminate].
    injection H as <-. simpl. now rewrite (IH bs).
Qed.

Lemma performQuickSearch_objects
    (query : jsstring) (ok : bool) (links : list (list (jsstring * JsVal))) (p : Page) :
  forallb (fun props => itemInterpolates (itemOf props)) (firstn 5 links) = true ->
  commandResults_html
    (page_after
       (complete (performQuickSearch query) (Response ok (Some (JArr (map JObj links))))) p)
  = (if isWellFormed query then
       match links with
       | [] => NoLinksFound
       | _ => QuickItems (map itemOf (firstn 5 links))
       end
     else commandResults_html p).
Proof.
  intros Hshow.
  unfold complete, page_after, performQuickSearch, async_try, bind, encodeURIComponent.
  destruct (isWellFormed query); cbn -[firstn mapM]; [|reflexivity].
  destruct links as [|l0 links]; [reflexivity|].
  unfold try_catch, bind, orThrow.
  cbn -[firstn mapM Z.of_nat].
  replace (Z.of_nat (S (List.length (map JObj links))) =? 0) with false
    by (symmetry; apply Z.eqb_neq; lia).
  change (JObj l0 :: map JObj links) with (map JObj (l0 :: links)).
  rewrite firstn_map, (mapM_renderItem_objects _ Hshow). reflexivity.
Qed.

Lemma performQuickSearch_any_outcome (query : jsstring) (r : FetchOutcome) (p : Page) :
  let p' := page_after (complete (performQuickSearch query) r) p in
  commandResults_html p' = commandResults_html p
  \/ commandResults_html p' = NoLinksFound
  \/ exists ok arr items,
       r = Response ok (Some (JArr arr))
       /\ mapM renderItem (firstn 5 arr) = Some items
       /\ commandResults_html p' = QuickItems items.
Proof.
  cbv zeta.
  unfold complete, page_after, performQuickSearch, async_try, bind, encodeURIComponent.
  destruct (isWellFormed query); cbn -[firstn mapM]; [|now left].
  unfold try_catch, bind.
  destruct r as [|okf [v|]]; cbn -[firstn mapM]; [now left| |now left].
  destruct (getLength v) as [len|]; cbn -[firstn mapM]; [|now left].
  destruct (strictEqualsZero len); cbn -[firstn mapM]; [right; now left|].
  destruct v; cbn -[firstn mapM]; try (now left).
  destruct (mapM renderItem (firstn 5 elems)) as [items|] eqn:E;
    cbn -[firstn mapM]; [|now left].
  right; right. exists okf, elems, items. repeat split. exact E.
Qed.

(** C8. Whatever the search endpoint answers to a quick search, the
    palette is left as it was, or shows "no links found", or shows the
    entries of the first five elements of the returned array, in the
    endpoint's order and never more than five.  When the answer is an array
    of link objects whose first five have values that convert to a string
    (strings, numbers and null always do), the palette shows "no links
    found" for the empty array and otherwise exactly the entries of the first
    five links; a query that cannot be encoded sends nothing and leaves the
    palette as it was. *)
Theorem performQuickSearch_shows_first_five (query : jsstring) (p : Page) :
  (forall r : FetchOutcome,
     let p' := page_after (complete (performQuickSearch query) r) p in
     commandResults_html p' = commandResults_html p
     \/ commandResults_html p' = NoLinksFound
     \/ exists ok arr items,
          r = Response ok (Some (JArr arr))
          /\ mapM renderItem (firstn 5 arr) = Some items
          /\ commandResults_html p' = QuickItems items
          /\ (List.length items <= 5)%nat)
  /\ (forall (ok : bool) (links : list (list (jsstring * JsVal))),
       forallb (fun props => itemInterpolates (itemOf props)) (firstn 5 links) = true ->
       commandResults_html
         (page_after
            (complete (performQuickSearch query) (Response ok (Some (JArr (map JObj links))))) p)
       = (if isWellFormed query then
            match links with
            | [] => NoLinksFound
            | _ => QuickItems (map itemOf (firstn 5 links))
            end
          else commandResults_html p)).
Proof.
  split.
  - intros r. cbv zeta.
    destruct (performQuickSearch_any_outcome query r p) as [H|[H|(ok & arr & items & Hr & Hm & H)]].
    + now left.
    + right; now left.
    + right; right. exists ok, arr, items. repeat split; try assumption.
      rewrite (mapM_length _ _ _ Hm). apply firstn_le_length.
  - intros ok links. apply performQuickSearch_objects.
Qed.

(** Links of the shape the endpoints document: the sixth and later ones are
    not shown. *)
Example performQuickSearch_six_links :
  let link n := [(lit "id", JNum n); (lit "title", JStr (lit "Docs"));
                 (lit "url", JStr (lit "https://example.com/docs"));
                 (lit "description", JNull); (lit "category", JStr (lit "general"));
                 (lit "clicks", JNum 0)] in
  commandResults_html
    (page_after
       (complete (performQuickSearch (lit "docs"))
          (Response true (Some (JArr (map JObj (map link [1; 2; 3; 4; 5; 6]))))))
       emptyPage)
  = QuickItems (map itemOf (map link [1; 2; 3; 4; 5])).
Proof. reflexivity. Qed.

(** *** Failures *)

Ltac kept p :=
  destruct p; cbn; split;
  [ reflexivity
  | first
      [ exists []; split; [ symmetry; apply app_nil_r | intros [] ]
      | rewrite <- ?app_assoc; eexists; split;
        [ reflexivity | cbn; intuition discriminate ] ] ].

Ltac shown := eexists; split; [|reflexivity]; reflexivity.

(** Splits on what is left undecided: whether the error of the response is
    truthy, and whether it converts to a string. *)
Ltac decide_error :=
  unfold js_or, showNotification, template, interpolates, bind; cbn;
  repeat match goal with
    | |- context [truthy (lookup ?k ?props)] =>
        let E := fresh "E" in
        destruct (truthy (lookup k props)) eqn:E; cbn; rewrite ?E; cbn
    | |- context [stringifies (lookup ?k ?props)] =>
        let E := fresh "E" in
        destruct (stringifies (lookup k props)) eqn:E; cbn; rewrite ?E; cbn
    end.

Lemma handleAddLink_failure (r : FetchOutcome) (p : Page) :
  reportsSuccess r = false ->
  let p' := page_after (complete handleAddLink r) p in
  notified p p' /\ stateKept p p'.
Proof.
  intros H. cbv zeta.
  unfold complete, page_after, handleAddLink, async_try, try_catch, bind, get, log, modify.
  cbn.
  destruct r as [|okf [v|]]; cbn.
  - split; [shown | kept p].
  - cbn -[lit] in H. destruct v; cbn -[lit] in H |- *; try rewrite H; cbn -[lit];
      decide_error; cbn; (split; [shown | kept p]).
  - split; [shown | kept p].
Qed.

Lemma handleImport_failure (r : FetchOutcome) (p : Page) :
  reportsSuccess r = false ->
  let p' := page_after (complete handleImport r) p in
  notified p p' /\ stateKept p p'.
Proof.
  intros H. cbv zeta.
  unfold complete, page_after, handleImport, bind, get.
  destruct (trim (importText_value p)) as [|c s] eqn:E.
  - cbn. split; [shown | kept p].
  - unfold async_try, try_catch, bind, fetch, log, modify. cbn.
    destruct r as [|okf [v|]]; cbn.
    + split; [shown | kept p].
    + cbn -[lit] in H. destruct v; cbn -[lit] in H |- *; try rewrite H; cbn -[lit];
        decide_error; cbn; (split; [shown | kept p]).
    + split; [shown | kept p].
Qed.

(** C1, as the code has it.  A failed add-link or bulk import (the response
    does not report success, or the request or its decoding throws) and a
    delete whose request throws show one error notification and change
    nothing else on the page: no modal is closed and the page is not
    reloaded.  A failed click increment shows no notification: the page is
    left as it was, and a request that throws is logged to the console. *)
Theorem failures_are_notified_except_clicks (op : Operation) (r : FetchOutcome) (p : Page) :
  failed op r = true ->
  let p' := page_after (complete (handler op) r) p in
  match op with
  | AddLink | BulkImport => notified p p' /\ stateKept p p'
  | Delete linkId => r = NetworkError -> notified p p' /\ stateKept p p'
  | ClickIncrement linkId =>
      notifications p' = notifications p
      /\ stateKept p p'
      /\ (r = NetworkError ->
          trace p' = trace p ++ [Fetch (ClickRequest linkId);
                                 ConsoleError "Click tracking error:"])
  end.
Proof.
  intros H. cbv zeta. destruct op as [| |linkId|linkId]; cbn [handler].
  - apply handleAddLink_failure. cbn in H. now apply negb_true_iff in H.
  - apply handleImport_failure. cbn in H. now apply negb_true_iff in H.
  - intros ->. unfold complete, page_after, deleteLink, async_try, try_catch, bind. cbn.
    split; [shown | kept p].
  - unfold complete, page_after, trackLinkClick, async_try, try_catch, bind.
    destruct r as [|okf body]; cbn.
    + split; [reflexivity|]. split; [kept p|].
      intros _. rewrite <- app_assoc. reflexivity.
    + split; [reflexivity|]. split; [kept p|]. discriminate.
Qed.

Lemma failures_are_notified_except_clicks_witness :
  let r := Response true (Some (JObj [(lit "success", JBool false);
                                      (lit "error", JStr (lit "Invalid URL"))])) in
  let p' := page_after (complete handleAddLink r) emptyPage in
  notified emptyPage p' /\ stateKept emptyPage p'.
Proof.
  exact (failures_are_notified_except_clicks AddLink
           (Response true (Some (JObj [(lit "success", JBool false);
                                       (lit "error", JStr (lit "Invalid URL"))])))
           emptyPage eq_refl).
Defined.

(** C1, as the specification states it, fails: when the click-tracking
    request throws, no notification is shown. *)
Lemma click_failure_is_not_notified :
  ~ surfacesFailure (ClickIncrement (JNum 7)) NetworkError emptyPage.
Proof.
  intros [[n [_ H]] _]. cbn in H. discriminate H.
Qed.

(** *** The store under concurrent requests *)

Lemma find_id (i : Z) (s : Server.Store) (l : Server.Link) :
  Server.find i s = Some l -> Server.id l = i.
Proof.
  induction s as [|x s IH]; simpl; [discriminate|].
  destruct (Z.eqb (Server.id x) i) eqn:E; [|exact IH].
  intros H. injection H as <-. now apply Z.eqb_eq.
Qed.

Lemma find_below_freshId (i : Z) (s : Server.Store) (l : Server.Link) :
  Server.find i s = Some l -> i < Server.freshId s.
Proof.
  unfold Server.freshId. induction s as [|x s IH]; simpl; [discriminate|].
  destruct (Z.eqb (Server.id x) i) eqn:E.
  - intros _. apply Z.eqb_eq in E. lia.
  - intros H. specialize (IH H). lia.
Qed.

Lemma find_after_click (i j : Z) (s : Server.Store) :
  Server.find j (map (fun x => if Z.eqb (Server.id x) i then Server.click x else x) s)
  = match Server.find j s with
    | Some l => Some (if Z.eqb j i then Server.click l else l)
    | None => None
    end.
Proof.
  induction s as [|x s IH]; simpl; [reflexivity|].
  destruct (Z.eqb (Server.id x) i) eqn:Ei; simpl;
    destruct (Z.eqb (Server.id x) j) eqn:Ej; try exact IH.
  - apply Z.eqb_eq in Ei, Ej. replace (Z.eqb j i) with true; [reflexivity|].
    symmetry. apply Z.eqb_eq. congruence.
  - apply Z.eqb_neq in Ei. apply Z.eqb_eq in Ej.
    replace (Z.eqb j i) with false; [reflexivity|].
    symmetry. apply Z.eqb_neq. congruence.
Qed.

Lemma find_after_delete (i j : Z) (s : Server.Store) :
  j <> i ->
  Server.find j (filter (fun x => negb (Z.eqb (Server.id x) i)) s) = Server.find j s.
Proof.
  intros Hji. induction s as [|x s IH]; simpl; [reflexivity|].
  destruct (Z.eqb (Server.id x) i) eqn:Ei; simpl.
  - apply Z.eqb_eq in Ei.
    replace (Z.eqb (Server.id x) j) with false; [exact IH|].
    symmetry. apply Z.eqb_neq. congruence.
  - rewrite IH. reflexivity.
Qed.

(** One atomic request leaves a stored link in place, with one more click
    when the request is an increment of its id and the same clicks otherwise. *)
Lemma step_clicks (validUrl : jsstring -> bool) (i : Z) (o : Server.Op)
    (s : Server.Store) (l : Server.Link) :
  Server.find i s = Some l ->
  Server.isDeleteOf i o = false ->
  exists l',
    Server.find i (Server.step validUrl s o) = Some l'
    /\ Server.clicks l'
       = Server.clicks l + (if Server.isIncrementOf i o then 1 else 0).
Proof.
  intros Hf Hd. destruct o as [now t u d c a|j|j|]; simpl in *.
  - unfold Server.create. destruct t as [|c0 t].
    + exists l. split; [exact Hf | lia].
    + destruct (validUrl u).
      * exists l. split; [|lia]. simpl.
        pose proof (find_below_freshId i s l Hf) as Hlt.
        replace (Z.eqb (Server.freshId s) i) with false; [exact Hf|].
        symmetry. apply Z.eqb_neq. lia.
      * exists l. split; [exact Hf | lia].
  - unfold Server.incrementClicks. destruct (Server.find j s) as [lj|] eqn:Ej.
    + rewrite find_after_click, Hf. rewrite (Z.eqb_sym j i).
      destruct (Z.eqb i j); eexists; (split; [reflexivity|]); simpl; lia.
    + destruct (Z.eqb j i) eqn:Eji.
      * apply Z.eqb_eq in Eji. congruence.
      * exists l. split; [exact Hf | lia].
  - unfold Server.delete. apply Z.eqb_neq in Hd.
    destruct (Server.find j s) as [lj|].
    + rewrite find_after_delete by congruence. exists l. split; [exact Hf | lia].
    + exists l. split; [exact Hf | lia].
  - exists l. split; [exact Hf | lia].
Qed.

(** C5. In every interleaving of atomic requests that does not delete a
    stored link, the link ends with its clicks raised by exactly the number
    of [incrementClicks] calls on its id that the interleaving holds: no
    update is lost, whatever else runs in between. *)
Theorem incrementClicks_loses_no_update (validUrl : jsstring -> bool)
    (schedule : list Server.Op) (i : Z) (s : Server.Store) (l : Server.Link) :
  Server.find i s = Some l ->
  forallb (fun o => negb (Server.isDeleteOf i o)) schedule = true ->
  exists l',
    Server.find i (Server.run validUrl schedule s) = Some l'
    /\ Server.clicks l'
       = Server.clicks l
         + Z.of_nat (List.length (filter (Server.isIncrementOf i) schedule)).
Proof.
  revert s l. induction schedule as [|o schedule IH]; intros s l Hf Hd.
  - exists l. split; [exact Hf | simpl; lia].
  - simpl in Hd. apply andb_true_iff in Hd as [Ho Hd].
    apply negb_true_iff in Ho.
    destruct (step_clicks validUrl i o s l Hf Ho) as (l1 & Hf1 & Hc1).
    destruct (IH _ _ Hf1 Hd) as (l' & Hf' & Hc').
    exists l'. split; [exact Hf'|].
    rewrite Hc', Hc1. cbn [filter].
    destruct (Server.isIncrementOf i o); cbn [List.length]; lia.
Qed.

Lemma incrementClicks_loses_no_update_witness :
  let l := Server.mkLink 1 (lit "Intro to ML") (lit "https://example.com/ml") None
             (lit "ai") (lit "Anonymous") 100 0 in
  let schedule :=
    [Server.OpIncrementClicks 1;
     Server.OpCreate 101 (lit "Docs") (lit "https://example.com/docs") None None None;
     Server.OpIncrementClicks 1; Server.OpIncrementClicks 2; Server.OpDelete 2;
     Server.OpRead; Server.OpIncrementClicks 1] in
  exists l',
    Server.find 1 (Server.run (fun _ => true) schedule [l]) = Some l'
    /\ Server.clicks l' = 0 + 3.
Proof.
  exact (incrementClicks_loses_no_update (fun _ => true)
           [Server.OpIncrementClicks 1;
            Server.OpCreate 101 (lit "Docs") (lit "https://example.com/docs") None None None;
            Server.OpIncrementClicks 1; Server.OpIncrementClicks 2; Server.OpDelete 2;
            Server.OpRead; Server.OpIncrementClicks 1]
           1
           [Server.mkLink 1 (lit "Intro to ML") (lit "https://example.com/ml") None
              (lit "ai") (lit "Anonymous") 100 0]
           _ eq_refl eq_refl).
Defined.

(** *** The handlers on concrete inputs *)

Example trim_example : trim (lit "  a b  ") = lit "a b".
Proof. reflexivity. Qed.

Example trim_line_terminators : trim [0x0A; 0x09; 0x2028; 0xFEFF; 0xA0]%N = [].
Proof. reflexivity. Qed.

(** A whole chat exchange: the user's message, then the reply and the links
    of the response in the place of the thinking indicator. *)
Example sendChatMessage_example :
  chatMessages
    (page_after
       (complete (sendChatMessage (fun _ => false))
          (Response true
             (Some (JObj [(lit "response", JStr (lit "Found 1 link"));
                          (lit "relevant_links",
                           JArr [JObj [(lit "id", JNum 1); (lit "title", JStr (lit "ML"))]])]))))
       (set_chatInput_value (lit " hello ") emptyPage))
  = [Message 0 User [Val (JStr (lit "hello"))];
     Message 2 AI [Val (JStr (lit "Found 1 link"))];
     Links [mkChatLink JUndefined (JNum 1) (JStr (lit "ML")) (JStr []) JUndefined]].
Proof. reflexivity. Qed.

(** A delete answered with an error status: the request is the only thing
    that happens. *)
Example deleteLink_error_status :
  page_after (complete (deleteLink (JStr (lit "5"))) (Response false None)) emptyPage
  = set_trace [Fetch (DeleteRequest (JStr (lit "5")))] emptyPage.
Proof. reflexivity. Qed.

Example handleAddLink_success :
  let p := page_after
             (complete handleAddLink (Response true (Some (JObj [(lit "success", JBool true)]))))
             (set_addLinkModal_hidden false emptyPage) in
  addLinkModal_hidden p = true
  /\ trace p = [PreventDefault; Fetch (AddLinkRequest []); LocationReload]
  /\ map n_type (notifications p) = [Success].
Proof. repeat split. Qed.

(** ** Further properties of the controller *)

(** *** Class lists *)

Lemma existsb_eqb_In (t : string) (l : list string) :
  existsb (String.eqb t) l = true <-> In t l.
Proof.
  rewrite existsb_exists. split.
  - intros (x & Hx & E). apply String.eqb_eq in E. now subst.
  - intros H. exists t. split; [exact H | apply String.eqb_refl].
Qed.

Lemma classList_remove_In (t : string) (tokens classes : list string) :
  In t (classList_remove tokens classes) <-> In t classes /\ ~ In t tokens.
Proof.
  unfold classList_remove. rewrite filter_In, negb_true_iff. split.
  - intros [H1 H2]. split; [exact H1|].
    intros Hin. apply existsb_eqb_In in Hin. congruence.
  - intros [H1 H2]. split; [exact H1|].
    destruct (existsb (String.eqb t) tokens) eqn:E; [|reflexivity].
    exfalso. apply H2. now apply existsb_eqb_In.
Qed.

Lemma classList_add_In (t : string) (tokens classes : list string) :
  In t (classList_add tokens classes) <-> In t classes \/ In t tokens.
Proof.
  unfold classList_add. revert classes.
  induction tokens as [|t0 tokens IH]; intros classes; simpl.
  - tauto.
  - rewrite IH. destruct (existsb (String.eqb t0) classes) eqn:E.
    + apply existsb_eqb_In in E. intuition (subst; auto).
    + rewrite in_app_iff. simpl. intuition (subst; auto).
Qed.

Lemma nth_error_update_nth {A} (f : A -> A) (n i : nat) (l : list A) :
  nth_error (update_nth n f l) i
  = if Nat.eqb i n then option_map f (nth_error l i) else nth_error l i.
Proof.
  revert n i. induction l as [|a l IH]; intros n i; simpl.
  - destruct i, n; simpl; try reflexivity. now destruct (Nat.eqb i n).
  - destruct n as [|n], i as [|i]; simpl; try reflexivity. apply IH.
Qed.

Lemma length_update_nth {A} (f : A -> A) (n : nat) (l : list A) :
  List.length (update_nth n f l) = List.length l.
Proof.
  revert n. induction l as [|a l IH]; intros [|n]; simpl; auto.
Qed.

Lemma activate_deactivate_classes (b : FilterButton) :
  In "active"%string (fb_classes (activate (deactivate b)))
  /\ ~ In "bg-gray-200"%string (fb_classes (activate (deactivate b))).
Proof.
  unfold activate. cbn [fb_classes]. split.
  - apply classList_remove_In. split.
    + apply classList_add_In. right. simpl. auto.
    + simpl. intuition discriminate.
  - intros H. apply classList_remove_In in H as [_ H]. apply H. simpl. auto.
Qed.

Lemma deactivate_classes (b : FilterButton) :
  ~ In "active"%string (fb_classes (deactivate b))
  /\ In "bg-gray-200"%string (fb_classes (deactivate b)).
Proof.
  unfold deactivate. cbn [fb_classes]. split.
  - intros H. apply classList_add_In in H as [H|H].
    + apply classList_remove_In in H as [_ H]. apply H. simpl. auto.
    + simpl in H. intuition discriminate.
  - apply classList_add_In. right. simpl. auto.
Qed.

(** X1. After a click on one of the category filter buttons, that button
    is the only one marked active, and every other button carries the grey
    background instead; no button changes its category. *)
Theorem handleCategoryFilter_one_active (target : nat) (p : Page) (b : FilterButton) :
  nth_error (categoryFilters p) target = Some b ->
  let p' := page_after (handleCategoryFilter target) p in
  List.length (categoryFilters p') = List.length (categoryFilters p)
  /\ forall i b0,
      nth_error (categoryFilters p) i = Some b0 ->
      exists b',
        nth_error (categoryFilters p') i = Some b'
        /\ fb_category b' = fb_category b0
        /\ (In "active"%string (fb_classes b') <-> i = target)
        /\ (In "bg-gray-200"%string (fb_classes b') <-> i <> target).
Proof.
  intros _. cbv zeta.
  unfold handleCategoryFilter, page_after, bind, get, modify. simpl.
  split; [now rewrite length_update_nth, length_map|].
  intros i b0 Hi. rewrite nth_error_update_nth, nth_error_map, Hi. simpl.
  destruct (Nat.eqb i target) eqn:E.
  - apply Nat.eqb_eq in E. eexists. split; [reflexivity|].
    destruct (activate_deactivate_classes b0) as [Ha Hg].
    split; [reflexivity|]. split; split; intros; try assumption; contradiction.
  - apply Nat.eqb_neq in E. eexists. split; [reflexivity|].
    destruct (deactivate_classes b0) as [Ha Hg].
    split; [reflexivity|]. split; split; intros; try assumption; contradiction.
Qed.

Lemma handleCategoryFilter_one_active_witness :
  let p := set_categoryFilters
             [mkFilterButton (Some (lit "all")) ["active"; "bg-guvi-orange"; "text-white"];
              mkFilterButton (Some (lit "ai")) ["bg-gray-200"; "text-gray-700"]]%string
             emptyPage in
  map fb_classes (categoryFilters (page_after (handleCategoryFilter 1) p))
  = [["bg-gray-200"; "text-gray-700"]; ["active"; "bg-guvi-orange"; "text-white"]]%string
  /\ (let p' := page_after (handleCategoryFilter 1) p in
      List.length (categoryFilters p') = List.length (categoryFilters p)
      /\ forall i b0,
          nth_error (categoryFilters p) i = Some b0 ->
          exists b',
            nth_error (categoryFilters p') i = Some b'
            /\ fb_category b' = fb_category b0
            /\ (In "active"%string (fb_classes b') <-> i = 1%nat)
            /\ (In "bg-gray-200"%string (fb_classes b') <-> i <> 1%nat)).
Proof.
  split; [reflexivity|].
  exact (handleCategoryFilter_one_active 1
           (set_categoryFilters
              [mkFilterButton (Some (lit "all")) ["active"; "bg-guvi-orange"; "text-white"];
               mkFilterButton (Some (lit "ai")) ["bg-gray-200"; "text-gray-700"]]%string
              emptyPage)
           (mkFilterButton (Some (lit "ai")) ["bg-gray-200"; "text-gray-700"]%string)
           eq_refl).
Defined.

(** *** The conversation *)




Section ChatTail.

Variable prefix : list ChatNode.
Variable keep : ChatNode -> bool.
Variable sent : list Request.





Hypothesis keep_reply : forall id v, keep (Message id AI [Val v]) = true.
Hypothesis keep_sorry :
  forall id, keep (Message id AI [Lit "Sorry, I encountered an error. Please try again."]) = true.
Hypothesis keep_links : forall l, keep (Links l) = true.




End ChatTail.





(** *** Reloads *)

Lemma reloads_app (a b : list Effect) : reloads (a ++ b) = (reloads a + reloads b)%nat.
Proof.
  induction a as [|e a IH]; simpl; [reflexivity|].
  destruct e; simpl; now rewrite IH.
Qed.

Ltac count_reloads := cbn; rewrite ?reloads_app; cbn; lia.

(** X4. The page is reloaded exactly once when an add-link, a bulk import
    with content or a delete succeeded, and not at all otherwise; click
    tracking never reloads.  Success is a truthy [success] in the body for
    the first two and a success status for the delete; a bulk import must
    also name a count that converts to a string, since its notification is
    built before the reload and the failure of that is caught as an error. *)
Theorem reload_exactly_on_success (op : Operation) (r : FetchOutcome) (p : Page) :
  let succeeded :=
    match op with
    | AddLink => reportsSuccess r
    | BulkImport =>
        (negb (blank (importText_value p)) && reportsSuccess r
         && stringifies (importedCount r))%bool
    | Delete _ => statusOk r
    | ClickIncrement _ => false
    end in
  reloads (trace (page_after (complete (handler op) r) p))
  = (reloads (trace p) + (if succeeded then 1 else 0))%nat.
Proof.
  cbv zeta. destruct op as [| |linkId|linkId]; cbn [handler].
  - unfold complete, page_after, handleAddLink, async_try, try_catch, bind, get, log, modify.
    destruct r as [|okf [v|]]; [count_reloads| |count_reloads].
    destruct v; try count_reloads.
    cbn -[lit]. decide_error; count_reloads.
  - unfold complete, page_after, handleImport, bind, get.
    destruct (blank (importText_value p)) eqn:Hb.
    + apply trim_nil_iff in Hb. rewrite Hb. count_reloads.
    + destruct (trim_not_blank _ Hb) as (c & s & E). rewrite E.
      unfold async_try, try_catch, bind, fetch, log, modify.
      destruct r as [|okf [v|]]; [count_reloads| |count_reloads].
      destruct v; try count_reloads.
      unfold importedCount, reportsSuccess, getProp. decide_error; count_reloads.
  - unfold complete, page_after, deleteLink, async_try, try_catch, bind.
    destruct r as [|[|] body]; count_reloads.
  - unfold complete, page_after, trackLinkClick, async_try, try_catch, bind.
    destruct r as [|okf body]; count_reloads.
Qed.

(** A success whose count does not convert to a string: the import is
    reported as failed, and neither the modal nor the page is touched. *)
Example handleImport_count_not_shown :
  let r := Response true (Some (JObj [(lit "success", JBool true);
                                      (lit "imported_count",
                                       JObj [(lit "toString", JNum 1)])])) in
  let p := set_importModal_hidden false
             (set_importText_value (lit "Docs https://example.com/docs") emptyPage) in
  let p' := page_after (complete handleImport r) p in
  importModal_hidden p' = false
  /\ reloads (trace p') = 0%nat
  /\ notifications p' = [mkNotification [Lit "Import failed. Please try again."] Error 3000].
Proof. repeat split. Qed.

(** *** Success *)

Lemma reportsSuccess_inv (r : FetchOutcome) :
  reportsSuccess r = true ->
  exists ok props,
    r = Response ok (Some (JObj props)) /\ truthy (lookup (lit "success") props) = true.
Proof.
  destruct r as [|ok [v|]]; simpl; try discriminate.
  destruct v; simpl; try discriminate. intros H. eauto.
Qed.

(** X5. An add-link the server reports as successful hides the modal, puts
    the form back to its initial values and shows one success notification.
    A bulk import reported as successful, with a count that converts to a
    string, hides its modal, empties the text area and names the count in
    its notification; as the text area is then empty, running the import
    handler again sends no further request. *)
Theorem success_closes_and_resets (r : FetchOutcome) (p : Page) :
  reportsSuccess r = true ->
  (let p' := page_after (complete handleAddLink r) p in
   addLinkModal_hidden p' = true
   /\ addLinkForm p' = addLinkForm_initial p
   /\ notifications p'
      = notifications p ++ [mkNotification [Lit "Link added successfully!"] Success 3000])
  /\ (blank (importText_value p) = false ->
      stringifies (importedCount r) = true ->
      let p' := page_after (complete handleImport r) p in
      importModal_hidden p' = true
      /\ importText_value p' = []
      /\ notifications p'
         = notifications p
           ++ [mkNotification
                 [Lit "Successfully imported "; Val (importedCount r); Lit " links!"]
                 Success 3000]
      /\ forall r2,
          requests (trace (page_after (complete handleImport r2) p')) = requests (trace p')).
Proof.
  intros H. destruct (reportsSuccess_inv r H) as (ok & props & -> & Hs). split.
  - cbv zeta.
    unfold complete, page_after, handleAddLink, async_try, try_catch, bind, get, log, modify.
    cbn -[lit]. rewrite Hs. cbn. repeat split.
  - intros Hb Hcount. cbv zeta. destruct (trim_not_blank _ Hb) as (c & s & E).
    cbn -[lit] in Hcount.
    assert (Hp' : exists q,
               page_after (complete handleImport (Response ok (Some (JObj props)))) p = q
               /\ importModal_hidden q = true /\ importText_value q = []
               /\ notifications q
                  = notifications p
                    ++ [mkNotification
                          [Lit "Successfully imported ";
                           Val (lookup (lit "imported_count") props); Lit " links!"]
                          Success 3000]).
    { unfold complete, page_after, handleImport, bind, get. rewrite E.
      unfold async_try, try_catch, bind, fetch, log, modify. cbn -[lit]. rewrite Hs.
      unfold showNotification, template, interpolates, bind. cbn -[lit].
      rewrite Hcount. cbn -[lit]. rewrite Hcount. cbn -[lit].
      eexists. split; [reflexivity|]. repeat split. }
    destruct Hp' as (q & -> & Hm & Ht & Hn).
    repeat split; try assumption.
    intros r2. unfold complete, page_after, bind.
    rewrite handleImport_blank by (now rewrite Ht). reflexivity.
Qed.

Lemma success_closes_and_resets_witness :
  let r := Response true (Some (JObj [(lit "success", JBool true);
                                      (lit "imported_count", JNum 3)])) in
  let p := set_importText_value (lit "Docs https://example.com/docs")
             (set_addLinkModal_hidden false (set_importModal_hidden false emptyPage)) in
  addLinkModal_hidden (page_after (complete handleAddLink r) p) = true
  /\ importText_value (page_after (complete handleImport r) p) = [].
Proof.
  pose proof (success_closes_and_resets
                (Response true (Some (JObj [(lit "success", JBool true);
                                            (lit "imported_count", JNum 3)])))
                (set_importText_value (lit "Docs https://example.com/docs")
                   (set_addLinkModal_hidden false (set_importModal_hidden false emptyPage)))
                eq_refl) as [Ha Hi].
  split; [exact (proj1 Ha) | exact (proj1 (proj2 (Hi eq_refl eq_refl)))].
Defined.

(** *** Deleting *)

(** X6. What [deleteLink] tells the user: a success notification when the
    response has a success status, an error notification when the request
    throws, and nothing at all when the response has an error status (the
    answer to a delete of an id that does not exist): then the request is the
    only thing that happened, with no notification, no reload and nothing on
    the console. *)
Theorem deleteLink_error_status_is_silent (linkId : JsVal) (r : FetchOutcome) (p : Page) :
  let p' := page_after (complete (deleteLink linkId) r) p in
  notifications p'
  = notifications p
    ++ match r with
       | NetworkError => [mkNotification [Lit "Failed to delete link"] Error 3000]
       | Response true _ => [mkNotification [Lit "Link deleted successfully"] Success 3000]
       | Response false _ => []
       end
  /\ (statusOk r = false -> r <> NetworkError ->
      p' = set_trace (trace p ++ [Fetch (DeleteRequest linkId)]) p).
Proof.
  cbv zeta. unfold complete, page_after, deleteLink, async_try, try_catch, bind.
  destruct r as [|[|] body]; cbn; split; try reflexivity; try discriminate.
  - congruence.
  - now rewrite app_nil_r.
Qed.

(** *** Searching *)

Lemma displaySearchResults_effect (links : JsVal) (p : Page) :
  (exists html,
     displaySearchResults links p
     = (Ok tt, set_searchResults_hidden false (set_searchResults_html html p))
     /\ (html = NoLinksFound
         \/ exists arr items,
              links = JArr arr /\ mapM renderItem arr = Some items /\ html = SearchItems items))
  \/ displaySearchResults links p = (Throw, p).
Proof.
  unfold displaySearchResults, bind, orThrow, modify.
  destruct (getLength links) as [len|]; cbn; [|now right].
  destruct (strictEqualsZero len); cbn.
  - left. exists NoLinksFound. split; [reflexivity | now left].
  - destruct links; cbn; try (now right).
    destruct (mapM renderItem elems) as [items|] eqn:E; cbn; [|now right].
    left. exists (SearchItems items). split; [reflexivity|].
    right. now exists elems, items.
Qed.


(** X8. The quick search of the command palette never tells the user about
    a failure: whatever happens, it shows no notification and touches nothing
    of the page but the palette's results; it either rewrites those results
    and logs nothing, or leaves them as they were and, once the query could
    be encoded, logs one console error after the request. *)
Theorem performQuickSearch_fails_silently (query : jsstring) (r : FetchOutcome) (p : Page) :
  let p' := page_after (complete (performQuickSearch query) r) p in
  notifications p' = notifications p
  /\ p' = set_trace (trace p') (set_commandResults_html (commandResults_html p') p)
  /\ (trace p' = trace p ++ [Fetch (SearchRequest query)]
      \/ (commandResults_html p' = commandResults_html p
          /\ trace p'
             = trace p
               ++ (if isWellFormed query then [Fetch (SearchRequest query)] else [])
               ++ [ConsoleError "Quick search error:"])).
Proof.
  cbv zeta.
  unfold complete, page_after, performQuickSearch, async_try, bind, encodeURIComponent.
  destruct (isWellFormed query); cbn -[firstn mapM].
  - unfold try_catch, bind.
    assert (Hfail :
              let p' := snd (console_error "Quick search error:"
                               (set_trace (trace p ++ [Fetch (SearchRequest query)]) p)) in
              notifications p' = notifications p
              /\ p' = set_trace (trace p') (set_commandResults_html (commandResults_html p') p)
              /\ (trace p' = trace p ++ [Fetch (SearchRequest query)]
                  \/ (commandResults_html p' = commandResults_html p
                      /\ trace p'
                         = trace p ++ [Fetch (SearchRequest query)]
                           ++ [ConsoleError "Quick search error:"]))).
    { destruct p; cbn. repeat split. right. split; [reflexivity|].
      now rewrite <- app_assoc. }
    destruct r as [|okf [v|]]; [exact Hfail| |exact Hfail].
    cbn -[firstn mapM].
    destruct (getLength v) as [len|]; [|exact Hfail].
    cbn -[firstn mapM].
    destruct (strictEqualsZero len); cbn -[firstn mapM].
    + destruct p; cbn. repeat split. now left.
    + destruct v; try exact Hfail. cbn -[firstn mapM].
      destruct (mapM renderItem (firstn 5 elems)); [|exact Hfail].
      destruct p; cbn. repeat split. now left.
  - destruct p; cbn. repeat split. right. split; reflexivity.
Qed.

(** *** Typing in the search box *)

Lemma handleSearch_result (value : jsstring) (p : Page) :
  handleSearch value p
  = (Ok tt,
     if blank value then set_searchResults_hidden true (set_searchTimeout None p)
     else set_searchTimeout (Some (trim value)) (set_searchTimeout None p)).
Proof.
  unfold handleSearch, bind, modify. destruct (blank value) eqn:Hb.
  - apply trim_nil_iff in Hb. now rewrite Hb.
  - destruct (trim_not_blank _ Hb) as (c & s & E). now rewrite E.
Qed.

Lemma handleSearch_each_frame (values : list jsstring) (p : Page) :
  exists q,
    handleSearch_each values p = (Ok tt, q)
    /\ trace q = trace p /\ isSearchMode q = isSearchMode p.
Proof.
  revert p. induction values as [|v values IH]; intros p; simpl.
  - exists p. repeat split.
  - unfold bind. rewrite handleSearch_result.
    destruct (IH (if blank v then set_searchResults_hidden true (set_searchTimeout None p)
                  else set_searchTimeout (Some (trim v)) (set_searchTimeout None p)))
      as (q & E & Ht & Hm).
    exists q. rewrite E, Ht, Hm. destruct (blank v); repeat split.
Qed.

Lemma handleSearch_each_last (values : list jsstring) (value : jsstring) (p : Page) :
  handleSearch_each (values ++ [value]) p
  = handleSearch value (snd (handleSearch_each values p)).
Proof.
  revert p. induction values as [|v values IH]; intros p; simpl.
  - unfold bind. now destruct (handleSearch value p) as [[[]|] q].
  - unfold bind. rewrite handleSearch_result. apply IH.
Qed.

Lemma performSearch_frame (query : jsstring) (r : FetchOutcome) (p : Page) :
  let p' := page_after (complete (performSearch query) r) p in
  requests (trace p')
  = requests (trace p) ++ (if isWellFormed query then [SearchRequest query] else [])
  /\ searchTimeout p' = searchTimeout p.
Proof.
  cbv zeta.
  unfold complete, page_after, performSearch, async_try, bind, encodeURIComponent.
  destruct (isWellFormed query); cbn.
  - unfold try_catch, bind.
    destruct r as [|okf [v|]]; cbn;
      try (rewrite !requests_app; cbn; rewrite app_nil_r; now split).
    destruct (displaySearchResults_effect v
                (set_trace (trace p ++ [Fetch (SearchRequest query)]) p))
      as [(html & E & _)|E]; rewrite E; cbn;
      rewrite !requests_app; cbn; rewrite ?app_nil_r; now split.
  - rewrite requests_app. cbn. now split.
Qed.

(** X9. Typing is debounced: after any run of input events with no timer
    firing in between, nothing has been sent and only the last value counts.
    When the timer then fires, at most one search request goes out, for the
    trimmed last value, and only if that value is not blank, the page is in
    search mode and the query can be encoded; no timer is left pending. *)
Theorem handleSearch_last_input_wins (values : list jsstring) (value : jsstring)
    (r : FetchOutcome) (p : Page) :
  let p1 := page_after (handleSearch_each (values ++ [value])) p in
  let p2 := page_after (complete handleSearch_timeout r) p1 in
  trace p1 = trace p
  /\ searchTimeout p1 = (if blank value then None else Some (trim value))
  /\ requests (trace p2)
     = requests (trace p)
       ++ (if (negb (blank value) && isSearchMode p && isWellFormed (trim value))%bool
           then [SearchRequest (trim value)] else [])
  /\ searchTimeout p2 = None.
Proof.
  cbv zeta.
  destruct (handleSearch_each_frame values p) as (q & E & Ht & Hm).
  assert (H1 : page_after (handleSearch_each (values ++ [value])) p
               = if blank value then set_searchResults_hidden true (set_searchTimeout None q)
                 else set_searchTimeout (Some (trim value)) (set_searchTimeout None q)).
  { unfold page_after. now rewrite handleSearch_each_last, E, handleSearch_result. }
  rewrite H1, <- Ht, <- Hm. clear H1.
  destruct (blank value); cbn [negb andb].
  - repeat split. now rewrite app_nil_r.
  - split; [reflexivity|]. split; [reflexivity|].
    unfold page_after, complete, handleSearch_timeout, bind, get, modify. cbn.
    destruct (isSearchMode q); cbn.
    + pose proof (performSearch_frame (trim value) r
                    (set_searchTimeout None
                       (set_searchTimeout (Some (trim value)) (set_searchTimeout None q))))
        as [Hr Hs].
      unfold page_after, complete, bind in Hr, Hs. split; [exact Hr | exact Hs].
    + split; [now rewrite app_nil_r | reflexivity].
Qed.

(** *** Clicks on links and delete buttons *)

(** X10. What the two click listeners of [document] do with a click.  It
    first hides the search results when it landed outside the search input
    and the results, and only then.  A click on a click-link element then
    sends the click-tracking request for that element's id and nothing else,
    even inside a delete button.  Any other click that is declined, or that
    is not on or inside a delete button, does nothing more and leaves
    nothing pending.  A delete request is sent only for a confirmed click on
    or inside a delete button, for the clicked element's own id when it has
    a non-empty one and for the button's id otherwise. *)
Theorem documentClick_deletes_only_when_confirmed
    (inInput inResults : bool) (target : Element) (ancestors : list Element)
    (confirmed : bool) (p : Page) :
  let p0 := if (inInput || inResults)%bool then p else set_searchResults_hidden true p in
  let p' := page_after (documentClick inInput inResults target ancestors confirmed) p in
  (classList_contains "click-link" target = true ->
     p' = set_trace
            (trace p ++ [Fetch (ClickRequest (dataset_value (el_dataset_id target)))]) p0)
  /\ (classList_contains "click-link" target = false ->
      confirmed = false \/ closest "delete-link" (target :: ancestors) = None ->
      documentClick inInput inResults target ancestors confirmed p = (Ok Done, p0))
  /\ (forall linkId,
        In (DeleteRequest linkId) (requests (trace p')) ->
        In (DeleteRequest linkId) (requests (trace p))
        \/ (confirmed = true
            /\ classList_contains "click-link" target = false
            /\ exists button,
                 closest "delete-link" (target :: ancestors) = Some button
                 /\ linkId = js_or (dataset_value (el_dataset_id target))
                                   (dataset_value (el_dataset_id button)))).
Proof.
  cbv zeta.
  assert (H0 : handleOutsideClick inInput inResults p
               = (Ok tt, if (inInput || inResults)%bool then p
                         else set_searchResults_hidden true p)).
  { unfold handleOutsideClick. now destruct inInput, inResults. }
  assert (Ht : trace (if (inInput || inResults)%bool then p
                      else set_searchResults_hidden true p) = trace p).
  { now destruct (inInput || inResults)%bool. }
  unfold page_after, documentClick, bind. rewrite H0.
  set (p0 := if (inInput || inResults)%bool then p else set_searchResults_hidden true p) in *.
  unfold handleLinkClick.
  destruct (classList_contains "click-link" target) eqn:Hc.
  - split; [intros _; cbn; now rewrite Ht|]. split; [discriminate|].
    intros linkId H. left. cbn in H. rewrite requests_app, Ht in H.
    apply in_app_or in H as [H|[H|[]]]; [exact H | discriminate].
  - split; [discriminate|].
    destruct (closest "delete-link" (target :: ancestors)) as [button|] eqn:Hb.
    + destruct confirmed.
      * split; [intros _ [H|H]; discriminate|].
        intros linkId H. cbn in H. rewrite requests_app, Ht in H.
        apply in_app_or in H as [H|[H|[]]]; [now left|right].
        injection H as <-. repeat split. now exists button.
      * split; [reflexivity|]. intros linkId H. cbn in H. rewrite Ht in H. now left.
    + split; [reflexivity|]. intros linkId H. cbn in H. rewrite Ht in H. now left.
Qed.

(** *** Statistics *)

(** X11. [showStats] sends one request and always ends with exactly one
    notification.  When the response gives three values that all convert to
    a string, both counters take their values and a success notification
    (shown for 5000 ms) names them, with nothing on the console.  In every
    other case the error is logged and one error notification is shown; the
    counters are then untouched when the request or its decoding failed,
    and otherwise written only as far as the values converted, the total
    first: so an error notification can come with updated counters. *)
Theorem showStats_one_notification (r : FetchOutcome) (d : Document) :
  let d' := document_after (completeD showStats r) d in
  let failure :=
    notifications (page d')
    = notifications (page d) ++ [mkNotification [Lit "Failed to load statistics"] Error 3000]
    /\ trace (page d') = trace (page d) ++ [ConsoleError "Stats error:"] in
  statsRequests d' = S (statsRequests d)
  /\ match statsFields r with
     | Some (total, weekly, categories) =>
         if (stringifies total && stringifies weekly && stringifies categories)%bool then
           totalLinks_textContent d' = total
           /\ weeklyLinks_textContent d' = weekly
           /\ notifications (page d')
              = notifications (page d)
                ++ [mkNotification
                      [Lit "📊 Total: "; Val total; Lit " links | This week: ";
                       Val weekly; Lit " | Categories: "; Val categories]
                      Success 5000]
           /\ trace (page d') = trace (page d)
         else
           failure
           /\ totalLinks_textContent d'
              = (if stringifies total then total else totalLinks_textContent d)
           /\ weeklyLinks_textContent d'
              = (if (stringifies total && stringifies weekly)%bool then weekly
                 else weeklyLinks_textContent d)
     | None =>
         failure
         /\ totalLinks_textContent d' = totalLinks_textContent d
         /\ weeklyLinks_textContent d' = weeklyLinks_textContent d
     end.
Proof.
  cbv zeta. unfold document_after, completeD, showStats, async_tryD, bindD, modifyD, retD.
  cbn -[try_catchD lit].
  unfold try_catchD, bindD, liftD, showNotification, template, interpolates, bind, statsFields.
  destruct r as [|okf [v|]]; cbn -[lit]; [repeat split| |repeat split].
  destruct v; cbn -[lit]; try (repeat split; fail).
  set (total := lookup (lit "total_links") props).
  set (weekly := lookup (lit "links_this_week") props).
  set (categories := lookup (lit "categories") props).
  destruct (stringifies total) eqn:E1; cbn -[lit]; [|repeat split].
  destruct (stringifies weekly) eqn:E2; cbn -[lit]; [|repeat split].
  destruct (stringifies categories) eqn:E3; cbn -[lit]; rewrite ?E1, ?E2, ?E3; cbn -[lit];
    repeat split.
Qed.

(** Statistics whose categories do not convert to a string: both counters
    are updated, and the user is told that loading failed. *)
Example showStats_counters_with_error :
  let r := Response true (Some (JObj [(lit "total_links", JNum 12);
                                      (lit "links_this_week", JNum 2);
                                      (lit "categories", JObj [(lit "toString", JNum 1)])])) in
  let d' := document_after (completeD showStats r) emptyDocument in
  totalLinks_textContent d' = JNum 12
  /\ weeklyLinks_textContent d' = JNum 2
  /\ notifications (page d') = [mkNotification [Lit "Failed to load statistics"] Error 3000].
Proof. repeat split. Qed.

(** *** Modes *)

(** X12. After a switch of mode, whatever the two mode buttons looked like
    before, the page agrees with itself: [isSearchMode] is the mode switched
    to, the chat panel is hidden exactly in search mode, the button of the
    current mode is the one highlighted and the other one is the one greyed
    out. *)
Theorem switch_mode_is_consistent (toSearch : bool) (d : Document) :
  let d' := document_after (if toSearch then switchToSearchMode else switchToChatMode) d in
  isSearchMode (page d') = toSearch
  /\ chatInterface_hidden d' = toSearch
  /\ (In "bg-white"%string (searchMode_classes d') <-> toSearch = true)
  /\ (In "bg-white"%string (chatMode_classes d') <-> toSearch = false)
  /\ (In "text-gray-600"%string (searchMode_classes d') <-> toSearch = false)
  /\ (In "text-gray-600"%string (chatMode_classes d') <-> toSearch = true).
Proof.
  cbv zeta. destruct toSearch;
    unfold document_after, switchToSearchMode, switchToChatMode, bindD, modifyD, liftD;
    cbn -[classList_add classList_remove];
    (split; [reflexivity|]); (split; [reflexivity|]);
    rewrite ?classList_remove_In, ?classList_add_In, ?classList_remove_In;
    cbn; intuition discriminate.
Qed.

(** X13. A search typed just before the switch to chat mode is dropped:
    the debounce timer still fires, but it sends nothing while the page is
    in chat mode, and neither does a search typed after the switch. *)
Theorem chat_mode_drops_pending_search (value : jsstring) (r : FetchOutcome) (d : Document) :
  let typed_then_switched :=
    document_after (liftD (handleSearch value) ;; switchToChatMode)%doc d in
  let switched_then_typed :=
    document_after (switchToChatMode ;; liftD (handleSearch value))%doc d in
  let fired d0 := document_after (liftD (complete handleSearch_timeout r)) d0 in
  trace (page (fired typed_then_switched)) = trace (page d)
  /\ trace (page (fired switched_then_typed)) = trace (page d)
  /\ searchTimeout (page (fired typed_then_switched)) = None
  /\ searchTimeout (page (fired switched_then_typed)) = None.
Proof.
  cbv zeta. unfold document_after, bindD, liftD.
  rewrite handleSearch_result. cbn -[handleSearch].
  unfold switchToChatMode, bindD, modifyD, liftD. cbn -[handleSearch].
  rewrite handleSearch_result. cbn.
  destruct (blank value); cbn; repeat split.
Qed.

(** *** Commands *)

(** X14. [executeCommand] closes what it opens.  For the names it does not
    know it leaves the document as it was; for every other name, [/add] and
    [/import] included, both modals, the palette and the search results are
    hidden when it returns: after [/add] or [/import] the document is exactly
    what [closeAllModals] alone would have left, so the modal the command
    opened is not shown. *)
Theorem executeCommand_closes_what_it_opens
    (inherited : jsstring -> option bool) (cmd : jsstring) (d : Document) :
  let d' := document_after (executeCommand inherited cmd) d in
  (d' = d
   \/ (addLinkModal_hidden (page d') = true
       /\ importModal_hidden (page d') = true
       /\ commandPalette_hidden d' = true
       /\ searchResults_hidden (page d') = true))
  /\ (cmd = lit "/add" \/ cmd = lit "/import" -> d' = document_after closeAllModals d)
  /\ (findCommand cmd commands = None -> inherited cmd = None -> d' = d).
Proof.
  cbv zeta. split; [|split].
  - unfold document_after, executeCommand, commands. cbn [findCommand].
    destruct (jsstring_eqb cmd (lit "/add")); [right; repeat split|].
    destruct (jsstring_eqb cmd (lit "/import")); [right; repeat split|].
    destruct (jsstring_eqb cmd (lit "/stats")); [right; repeat split|].
    destruct (jsstring_eqb cmd (lit "/chat")); [right; repeat split|].
    destruct (inherited cmd) as [[|]|]; [right; repeat split|now left|now left].
  - intros [-> | ->]; destruct d as [pg]; destruct pg; reflexivity.
  - intros Hf Hi. unfold document_after, executeCommand. now rewrite Hf, Hi.
Qed.






(** *** Keyboard *)

(** X16. The keyboard has two shortcuts and no other.  A key that is
    neither Escape nor [k] with Ctrl or Meta held (an upper-case [K]
    included) leaves the document untouched.  Ctrl or Meta with [k] flips
    the palette between hidden and shown and touches no modal, so two
    presses in a row leave the palette as hidden or shown as it was. *)
Theorem handleKeydown_two_shortcuts (ctrlKey metaKey : bool) (key : jsstring) (d : Document) :
  let d' := document_after (handleKeydown ctrlKey metaKey key) d in
  (jsstring_eqb key (lit "Escape") = false ->
   ((ctrlKey || metaKey) && jsstring_eqb key (lit "k"))%bool = false ->
   handleKeydown ctrlKey metaKey key d = (Ok tt, d))
  /\ ((ctrlKey || metaKey)%bool = true -> key = lit "k" ->
      commandPalette_hidden d' = negb (commandPalette_hidden d)
      /\ page d' = set_trace (trace (page d) ++ [PreventDefault]) (page d)
      /\ commandPalette_hidden (document_after (handleKeydown ctrlKey metaKey key) d')
         = commandPalette_hidden d).
Proof.
  cbv zeta. split.
  - intros He Hk. unfold handleKeydown, bindD. rewrite He, Hk. reflexivity.
  - intros Hc ->. unfold document_after, handleKeydown, bindD, toggleCommandPalette.
    rewrite Hc. cbn.
    destruct (commandPalette_hidden d) eqn:Hp; cbn; rewrite ?Hp; cbn; repeat split.
Qed.

Example handleKeydown_upper_case_K :
  handleKeydown true false (lit "K") emptyDocument = (Ok tt, emptyDocument).
Proof. reflexivity. Qed.

(** *** What an import sends *)

(** X17. The one request of a bulk import carries the content trimmed, and
    the category and any non-empty name exactly as entered: only the empty
    name is replaced, so a name made of spaces is sent as it is. *)
Theorem handleImport_sends_name_as_entered (r : FetchOutcome) (p : Page) :
  blank (importText_value p) = false ->
  importAddedBy_value p <> [] ->
  requests (trace (page_after (complete handleImport r) p))
  = requests (trace p)
    ++ [ImportRequest (trim (importText_value p)) (importCategory_value p)
          (importAddedBy_value p)].
Proof.
  intros H Hname. unfold complete, page_after, bind.
  destruct (handleImport_sends p H) as (k & E & Hk). rewrite E. simpl.
  specialize (Hk r (set_trace
         (trace p
          ++ [Fetch (ImportRequest (trim (importText_value p)) (importCategory_value p)
                       (match importAddedBy_value p with
                        | [] => lit "Anonymous"
                        | _ => importAddedBy_value p
                        end))]) p)).
  unfold page_after in Hk. rewrite Hk. simpl. rewrite requests_app.
  destruct (importAddedBy_value p); [contradiction | reflexivity].
Qed.

Lemma handleImport_sends_name_as_entered_witness :
  let p := set_importText_value (lit " https://example.com/ml ")
             (mkPage true None true (Static "") [] [] true [] [] false [] (lit "ai") (lit "  ")
                (Static "") [] [] [] (fun n => Z.of_nat n) 0%nat []) in
  requests (trace (page_after (complete handleImport NetworkError) p))
  = [ImportRequest (lit "https://example.com/ml") (lit "ai") (lit "  ")].
Proof.
  exact (handleImport_sends_name_as_entered NetworkError
           (set_importText_value (lit " https://example.com/ml ")
              (mkPage true None true (Static "") [] [] true [] [] false [] (lit "ai") (lit "  ")
                 (Static "") [] [] [] (fun n => Z.of_nat n) 0%nat []))
           eq_refl ltac:(discriminate)).
Defined.
